(** * HealthLake ETL (healthlake_etl.py): tenant tagging, partitioned write,
      catalog synchronisation and the per-resource-type driver.

    The script is embedded shallowly.  Python values are an inductive type,
    dictionaries are finite maps with string keys, and the stateful part of
    the script (prints, Spark reads and writes, Glue catalog calls) runs in
    a small state-and-exception monad over an abstract world. *)

From stdpp Require Import gmap strings list fin_maps.

Open Scope string_scope.

(** ** Python values *)

(** The JSON-like fragment of Python values that reaches the script: [None],
    booleans, integers, strings, lists and dictionaries with string keys.
    Floats are left out; no function of the script inspects one. *)
#[warnings="-register-all"]
Inductive pyval : Type :=
| PNone
| PBool (b : bool)
| PInt (z : Z)
| PStr (s : string)
| PList (l : list pyval)
| PDict (d : gmap string pyval).

(** Instances of (subclasses of) [Exception]: the class name and [str(e)].
    Interpreter-level [BaseException]s (KeyboardInterrupt, SystemExit) are
    outside the model. *)
Record exn : Type := mkExn { exn_class : string; exn_str : string }.

(** Outcome of evaluating a piece of Python: a value, or a raised exception. *)
Inductive result (A : Type) : Type :=
| Ret (a : A)
| Raise (e : exn).
Arguments Ret {A} a.
Arguments Raise {A} e.

Module Py.

(** [bool(v)], as used by [not v] and [if v]. *)
Definition truthy (v : pyval) : bool :=
  match v with
  | PNone => false
  | PBool b => b
  | PInt z => negb (z =? 0)%Z
  | PStr s => negb (String.eqb s "")
  | PList l => match l with [] => false | _ :: _ => true end
  | PDict d => match map_to_list d with [] => false | _ :: _ => true end
  end.

(** The one-character strings of a string, in order. *)
Fixpoint chars (s : string) : list string :=
  match s with
  | EmptyString => []
  | String a rest => String a EmptyString :: chars rest
  end.

(** [iter(v)] run to exhaustion: the items a [for] loop over [v] visits.
    A list yields its elements, a string its characters, a dictionary its
    keys; the other values are not iterable and raise [TypeError]. *)
Definition iter (v : pyval) : result (list pyval) :=
  match v with
  | PList l => Ret l
  | PStr s => Ret (PStr <$> chars s)
  | PDict d => Ret (PStr <$> (map_to_list d).*1)
  | PNone => Raise (mkExn "TypeError" "'NoneType' object is not iterable")
  | PBool _ => Raise (mkExn "TypeError" "'bool' object is not iterable")
  | PInt _ => Raise (mkExn "TypeError" "'int' object is not iterable")
  end.

(** [isinstance(v, dict)] *)
Definition is_dict (v : pyval) : bool :=
  match v with PDict _ => true | _ => false end.

(** [isinstance(v, list)] *)
Definition is_list (v : pyval) : bool :=
  match v with PList _ => true | _ => false end.

(** [d.get(k)]: the value under [k], [None] when the key is missing. *)
Definition get (d : gmap string pyval) (k : string) : pyval :=
  default PNone (d !! k).

(** [d.get(k, dflt)] *)
Definition get_default (d : gmap string pyval) (k : string) (dflt : pyval) : pyval :=
  default dflt (d !! k).

(** [v == s] for a string constant [s]: only an equal string is equal. *)
Definition eq_str (v : pyval) (s : string) : bool :=
  match v with
  | PStr t => String.eqb t s
  | _ => false
  end.

(** ASCII lower-casing, which is what [str.lower()] does on the resource
    type names and on the rendering of Spark data types. *)
Definition lower_ascii (a : Ascii.ascii) : Ascii.ascii :=
  let n := Ascii.nat_of_ascii a in
  if (65 <=? n)%nat && (n <=? 90)%nat then Ascii.ascii_of_nat (n + 32) else a.

Fixpoint lower (s : string) : string :=
  match s with
  | EmptyString => EmptyString
  | String a rest => String (lower_ascii a) (lower rest)
  end.

End Py.

(** ** Tenant identifier extraction (lines 45-69) *)

Definition TENANT_CLAIM_SYSTEM : string :=
  "http://thirdopinion.io/identity/claims/tenant".

(** The test of line 64:
    [isinstance(label, dict) and label.get('system') == TENANT_CLAIM_SYSTEM]. *)
Definition is_tenant_label (label : pyval) : bool :=
  match label with
  | PDict d => Py.eq_str (Py.get d "system") TENANT_CLAIM_SYSTEM
  | _ => false
  end.

(** The [for] loop of lines 63-65 over the items of the iterable.  [Some v]
    means that the [return] of line 65 ran with value [v]; [None] means that
    the loop ran off the end. *)
Fixpoint scan_labels (labels : list pyval) : option pyval :=
  match labels with
  | [] => None
  | label :: rest =>
      match label with
      | PDict d =>
          if Py.eq_str (Py.get d "system") TENANT_CLAIM_SYSTEM
          then Some (Py.get_default d "code" (PStr "unknown"))
          else scan_labels rest
      | _ => scan_labels rest
      end
  end.

(** [extract_tenant_id]: the truthiness guard of line 59, the loop inside
    [try], the bare [except: pass] that swallows whatever the loop raised,
    and the final [return "unknown"]. *)
Definition extract_tenant_id (security_labels : pyval) : result pyval :=
  if negb (Py.truthy security_labels) then Ret (PStr "unknown")
  else
    match Py.iter security_labels with
    | Ret labels =>
        match scan_labels labels with
        | Some code => Ret code
        | None => Ret (PStr "unknown")
        end
    | Raise _ => Ret (PStr "unknown")
    end.

(** What a caller can hand to [extract_tenant_id]: a JSON-like value, or some
    other object, of which only the truth test ([bool(x)]) and the iteration
    ([for label in x]) matter to the function; each may raise. *)
Inductive pyarg : Type :=
| Json (v : pyval)
| Opaque (truth : result bool) (items : result (list pyval)).

Definition arg_truthy (a : pyarg) : result bool :=
  match a with
  | Json v => Ret (Py.truthy v)
  | Opaque truth _ => truth
  end.

Definition arg_iter (a : pyarg) : result (list pyval) :=
  match a with
  | Json v => Py.iter v
  | Opaque _ items => items
  end.

(** [extract_tenant_id] on any argument.  The test [not security_labels] of
    line 59 comes before the [try] of line 62, so what it raises is not
    caught; what the loop raises is. *)
Definition extract_tenant_id_any (security_labels : pyarg) : result pyval :=
  match arg_truthy security_labels with
  | Raise e => Raise e
  | Ret b =>
      if negb b then Ret (PStr "unknown")
      else
        match arg_iter security_labels with
        | Ret labels =>
            match scan_labels labels with
            | Some code => Ret code
            | None => Ret (PStr "unknown")
            end
        | Raise _ => Ret (PStr "unknown")
        end
  end.

(** [numpy.array([1, 2])]: iterating it gives 1 and 2, its truth test raises
    [ValueError]. *)
Definition numpy_array_1_2 : pyarg :=
  Opaque
    (Raise (mkExn "ValueError"
              "The truth value of an array with more than one element is ambiguous. Use a.any() or a.all()"))
    (Ret [PInt 1; PInt 2]).

(** A label object as a Python dictionary. *)
Definition label_of (system code : string) : pyval :=
  PDict {[ "system" := PStr system; "code" := PStr code ]}.


(** ** The tabular engine, as the script sees it *)

Module Spark.
Section Frames.
(** [pyspark.sql.types.DataType]: kept abstract, the script only renders
    it with [str]. *)
Context {DataType : Type}.

Record StructField : Type := { name : string; dataType : DataType }.

(** A row maps column names to values. *)
Record DataFrame : Type :=
  { schema : list StructField; rows : list (gmap string pyval) }.

Definition count (df : DataFrame) : nat := length (rows df).

(** The schema after [withColumn]: a column of that name is replaced in
    place, a new one is added at the end. *)
Definition with_field (f : StructField) (fs : list StructField)
  : list StructField :=
  if existsb (fun g => String.eqb (name g) (name f)) fs
  then map (fun g => if String.eqb (name g) (name f) then f else g) fs
  else (fs ++ [f])%list.

(** [df.withColumn(colName, c)] for a column [c] of type [dt] whose
    values have been computed: one value per row, in row order. *)
Definition withColumn (colName : string) (dt : DataType)
    (values : list pyval) (df : DataFrame) : DataFrame :=
  {| schema := with_field {| name := colName; dataType := dt |} (schema df);
     rows := zip_with (fun r v => <[colName := v]> r) (rows df) values |}.

(** The values of [lit(v)]: the same value for every row. *)
Definition lit (v : pyval) (df : DataFrame) : list pyval :=
  (fun _ => v) <$> rows df.

(** What [df.write.mode(m).partitionBy(cols).parquet(path)] asks of the
    engine. *)
Record write_request : Type :=
  { w_mode : string;
    w_partitionBy : list string;
    w_format : string;
    w_path : string;
    w_data : DataFrame }.
End Frames.
Arguments StructField : clear implicits.
Arguments DataFrame : clear implicits.
Arguments write_request : clear implicits.
End Spark.

(** What the script prints and asks of its collaborators, in order. *)
Inductive event {DataType : Type} : Type :=
| EvPrint (line : string)
| EvReadJson (path : string)
| EvUdfCall (arg : pyval)
| EvWrite (w : Spark.write_request DataType)
| EvBotoClient (service : string)
| EvCreateTable (DatabaseName : string) (TableInput : pyval)
| EvUpdateTable (DatabaseName : string) (TableInput : pyval).
Arguments event : clear implicits.

(** The collaborators that live outside the script: Spark, the clock and the
    Glue client of boto3.  [W] is the state of that outside world (stored
    objects, catalog contents, time); each call may change it and may raise.
    [col] stands for Spark's analysis of a column path against a frame: it
    raises (AnalysisException) when the path does not resolve, and else
    gives the function from a row to the Python value handed to a UDF. *)
Record collaborators (DataType W : Type) : Type :=
  { StringType : DataType;
    DataType_str : DataType -> string;
    read_json : string -> W -> result (Spark.DataFrame DataType) * W;
    col : string -> Spark.DataFrame DataType ->
          result (gmap string pyval -> pyval);
    write_parquet : Spark.write_request DataType -> W -> result unit * W;
    now_isoformat : W -> string * W;
    boto3_client : string -> W -> result unit * W;
    create_table : string -> pyval -> W -> result unit * W;
    update_table : string -> pyval -> W -> result unit * W }.
Arguments StringType {DataType W} c.
Arguments DataType_str {DataType W} c _.
Arguments read_json {DataType W} c _ _.
Arguments col {DataType W} c _ _.
Arguments write_parquet {DataType W} c _ _.
Arguments now_isoformat {DataType W} c _.
Arguments boto3_client {DataType W} c _ _.
Arguments create_table {DataType W} c _ _ _.
Arguments update_table {DataType W} c _ _ _.

(** The job parameters read by [getResolvedOptions] (lines 21-29). *)
Record job_args : Type :=
  { JOB_NAME : string;
    RAW_BUCKET : string;
    CURATED_BUCKET : string;
    TENANT_PARTITION_KEY : string;
    ENABLE_MULTI_TENANT : string;
    EXPORT_PATH : string;
    TIMESTAMP : string }.

(** ** The script monad: world state, emitted events, exceptions *)

Module Script.
Section Monad.
Context {DataType W : Type}.

(** A computation takes the world and gives an outcome, the new world and
    the events it emitted, oldest first. *)
Definition M (A : Type) : Type :=
  W -> result A * W * list (event DataType).

Definition ret {A} (a : A) : M A := fun w => (Ret a, w, []).

Definition raise {A} (e : exn) : M A := fun w => (Raise e, w, []).

Definition bind {A B} (m : M A) (k : A -> M B) : M B :=
  fun w =>
    match m w with
    | (Ret a, w1, es1) =>
        match k a w1 with
        | (r, w2, es2) => (r, w2, (es1 ++ es2)%list)
        end
    | (Raise e, w1, es1) => (Raise e, w1, es1)
    end.

(** [try: m  except C as e: h e], where [catches e] says that [e] is an
    instance of [C]; other exceptions pass through. *)
Definition try_except {A} (m : M A) (catches : exn -> bool)
    (h : exn -> M A) : M A :=
  fun w =>
    match m w with
    | (Raise e, w1, es1) =>
        if catches e
        then match h e w1 with
             | (r, w2, es2) => (r, w2, (es1 ++ es2)%list)
             end
        else (Raise e, w1, es1)
    | ok => ok
    end.

Definition emit (ev : event DataType) : M unit :=
  fun w => (Ret tt, w, [ev]).

(** A call to a collaborator, announced by an event. *)
Definition call {A} (ev : event DataType) (op : W -> result A * W) : M A :=
  fun w =>
    match op w with
    | (r, w1) => (r, w1, [ev])
    end.

Definition print (line : string) : M unit := emit (EvPrint line).

Definition outcome {A} (x : result A * W * list (event DataType)) : result A :=
  x.1.1.
Definition final {A} (x : result A * W * list (event DataType)) : W :=
  x.1.2.
Definition events {A} (x : result A * W * list (event DataType))
  : list (event DataType) :=
  x.2.
End Monad.
Arguments M : clear implicits.

(** [except Exception]: every modelled exception is an [Exception]. *)
Definition Exception (e : exn) : bool := true.

(** [except glue_client.exceptions.AlreadyExistsException] *)
Definition AlreadyExistsException (e : exn) : bool :=
  String.eqb (exn_class e) "AlreadyExistsException".
End Script.

Declare Scope script_scope.
Delimit Scope script_scope with script.
Notation "'let*' x ':=' m 'in' k" :=
  (Script.bind m (fun x => k))
  (at level 10, x name, m at level 100, k at level 200) : script_scope.
Notation "m '>>' k" :=
  (Script.bind m (fun _ => k))
  (at level 90, right associativity) : script_scope.

(** ** The script (lines 37-224) *)

Section Etl.
Context {DataType W : Type}.
Variable ext : collaborators DataType W.
Variable args : job_args.

Local Open Scope script_scope.
Import Script.

(** Configuration (lines 38-43). *)
Definition raw_bucket : string := RAW_BUCKET args.
Definition curated_bucket : string := CURATED_BUCKET args.
Definition tenant_partition_key : string := TENANT_PARTITION_KEY args.
Definition enable_multi_tenant : bool :=
  String.eqb (Py.lower (ENABLE_MULTI_TENANT args)) "true".
Definition export_path : string := EXPORT_PATH args.
Definition timestamp : string := TIMESTAMP args.

(** One field of the Glue column list (lines 131-134). *)
Definition glue_column (field : Spark.StructField DataType) : pyval :=
  PDict {[ "Name" := PStr (Spark.name field);
           "Type" := PStr (Py.lower (DataType_str ext (Spark.dataType field))) ]}.

(** The test of line 130:
    [field.name not in [tenant_partition_key, "_export_timestamp"]]. *)
Definition is_plain_column (field : Spark.StructField DataType) : bool :=
  negb (String.eqb (Spark.name field) tenant_partition_key
        || String.eqb (Spark.name field) "_export_timestamp").

(** The loop of lines 128-134. *)
Definition glue_schema (schema : list (Spark.StructField DataType))
  : list pyval :=
  glue_column <$> filter (fun f => is_plain_column f = true) schema.

(** Lines 137-140. *)
Definition partition_keys : list pyval :=
  [ PDict {[ "Name" := PStr tenant_partition_key; "Type" := PStr "string" ]};
    PDict {[ "Name" := PStr "_export_timestamp"; "Type" := PStr "string" ]} ].

(** The [TableInput] of the [create_table] call (lines 148-167). *)
Definition create_table_input (table_name location : string)
    (schema : list (Spark.StructField DataType)) : pyval :=
  PDict {[
    "Name" := PStr table_name;
    "StorageDescriptor" := PDict {[
      "Columns" := PList (glue_schema schema);
      "Location" := PStr location;
      "InputFormat" := PStr "org.apache.hadoop.mapred.TextInputFormat";
      "OutputFormat" :=
        PStr "org.apache.hadoop.hive.ql.io.HiveIgnoreKeyTextOutputFormat";
      "SerdeInfo" := PDict {[
        "SerializationLibrary" :=
          PStr "org.apache.hadoop.hive.serde2.lazy.LazySimpleSerDe" ]};
      "StoredAsSubDirectories" := PBool false ]};
    "PartitionKeys" := PList partition_keys;
    "TableType" := PStr "EXTERNAL_TABLE";
    "Parameters" := PDict {[
      "classification" := PStr "parquet";
      "compressionType" := PStr "snappy";
      "typeOfData" := PStr "file" ]} ]}.

(** The [TableInput] of the [update_table] call (lines 174-181). *)
Definition update_table_input (table_name location : string)
    (schema : list (Spark.StructField DataType)) : pyval :=
  PDict {[
    "Name" := PStr table_name;
    "StorageDescriptor" := PDict {[
      "Columns" := PList (glue_schema schema);
      "Location" := PStr location ]};
    "PartitionKeys" := PList partition_keys ]}.

(** [create_glue_table] (lines 120-185). *)
Definition create_glue_table (table_name location : string)
    (schema : list (Spark.StructField DataType)) : M DataType W unit :=
  try_except
    (let database_name := "healthlake_analytics" in
     call (EvBotoClient "glue") (boto3_client ext "glue") >>
     try_except
       (call (EvCreateTable database_name
                (create_table_input table_name location schema))
             (create_table ext database_name
                (create_table_input table_name location schema)) >>
        print ("Created Glue table: " ++ table_name))
       AlreadyExistsException
       (fun _ =>
          print ("Table " ++ table_name ++ " already exists, updating...") >>
          call (EvUpdateTable database_name
                  (update_table_input table_name location schema))
               (update_table ext database_name
                  (update_table_input table_name location schema))))
    Exception
    (fun e =>
       print ("Error creating/updating Glue table " ++ table_name ++ ": "
              ++ exn_str e)).

(** [extract_tenant_udf] applied to the values of a column: one call of
    [extract_tenant_id] per row, in row order; an exception raised by a
    call ends the evaluation.  (Spark evaluates the column when the frame
    is written; the model evaluates it where the column is built.  The
    rows that reach the writer are the same.) *)
Fixpoint extract_tenant_udf (values : list pyval) : M DataType W (list pyval) :=
  match values with
  | [] => ret []
  | v :: rest =>
      let* t := (fun w => (extract_tenant_id v, w, [EvUdfCall v])) in
      let* ts := extract_tenant_udf rest in
      ret (t :: ts)
  end.

(** Lines 89-96: the tenant column. *)
Definition df_with_tenant (df : Spark.DataFrame DataType)
  : M DataType W (Spark.DataFrame DataType) :=
  if enable_multi_tenant then
    let* security := (fun w => (col ext "meta.security" df, w, [])) in
    let* tenants := extract_tenant_udf (security <$> Spark.rows df) in
    ret (Spark.withColumn tenant_partition_key (StringType ext) tenants df)
  else
    ret (Spark.withColumn tenant_partition_key (StringType ext)
           (Spark.lit (PStr "default") df) df).

(** Lines 99-101: the processing metadata, [now] being what
    [datetime.now().isoformat()] gave. *)
Definition df_with_metadata (with_tenant : Spark.DataFrame DataType)
    (now : string) : Spark.DataFrame DataType :=
  let with_export :=
    Spark.withColumn "_export_timestamp" (StringType ext)
      (Spark.lit (PStr timestamp) with_tenant) with_tenant in
  Spark.withColumn "_processing_date" (StringType ext)
    (Spark.lit (PStr now) with_export) with_export.

(** Line 104. *)
Definition output_path (resource_type : string) : string :=
  "s3://" ++ curated_bucket ++ "/" ++ Py.lower resource_type ++ "/".

(** Lines 106-109: the write that is asked of Spark. *)
Definition write_request (resource_type : string)
    (with_metadata : Spark.DataFrame DataType) : Spark.write_request DataType :=
  {| Spark.w_mode := "append";
     Spark.w_partitionBy := [tenant_partition_key; "_export_timestamp"];
     Spark.w_format := "parquet";
     Spark.w_path := output_path resource_type;
     Spark.w_data := with_metadata |}.

(** [process_resource_type] (lines 74-118).  The early [return] of line 86
    is the first branch of the conditional. *)
Definition process_resource_type
    (resource_type input_path output_base_path : string) : M DataType W unit :=
  print ("Processing " ++ resource_type ++ " from " ++ input_path) >>
  try_except
    (let* df := call (EvReadJson input_path) (read_json ext input_path) in
     if (Spark.count df =? 0)%nat then
       print ("No data found for " ++ resource_type)
     else
       let* with_tenant := df_with_tenant df in
       let* now :=
         (fun w => let '(s, w1) := now_isoformat ext w in (Ret s, w1, [])) in
       let with_metadata := df_with_metadata with_tenant now in
       let request := write_request resource_type with_metadata in
       call (EvWrite request) (write_parquet ext request) >>
       print ("Successfully wrote " ++ resource_type ++ " to "
              ++ output_path resource_type) >>
       create_glue_table (Py.lower resource_type) (output_path resource_type)
         (Spark.schema with_metadata))
    Exception
    (fun e =>
       print ("Error processing " ++ resource_type ++ ": " ++ exn_str e) >>
       raise e).

(** Lines 197-210. *)
Definition resource_types : list string :=
  [ "Patient"; "Observation"; "Condition"; "MedicationRequest"; "Procedure";
    "DiagnosticReport"; "Encounter"; "AllergyIntolerance"; "Immunization";
    "CarePlan"; "Goal"; "MedicationStatement" ].

(** The loop of lines 213-222 over a list of resource types. *)
Fixpoint process_all (types : list string) : M DataType W unit :=
  match types with
  | [] => ret tt
  | resource_type :: rest =>
      let input_path := export_path ++ resource_type ++ "*.ndjson" in
      let output_base_path := "s3://" ++ curated_bucket ++ "/" in
      try_except
        (process_resource_type resource_type input_path output_base_path)
        Exception
        (fun e =>
           print ("Failed to process " ++ resource_type ++ ": " ++ exn_str e)) >>
      process_all rest
  end.

(** [main] (lines 188-224), for a given list of resource types. *)
Definition main_on (types : list string) : M DataType W unit :=
  print "Starting HealthLake ETL processing" >>
  print ("Export path: " ++ export_path) >>
  print ("Multi-tenant mode: " ++ (if enable_multi_tenant then "True" else "False")) >>
  process_all types >>
  print "ETL processing completed successfully".

Definition main : M DataType W unit := main_on resource_types.

End Etl.

(** ** A small concrete world

    An instance of the collaborators on which the script can be run: files
    are looked up by path, some destinations refuse writes, the catalog
    remembers the tables it was given and reports a table that is already
    there. *)

Module Demo.

Record world : Type :=
  { files : list (string * Spark.DataFrame string);
    unwritable : list string;
    written : list (Spark.write_request string);
    tables : list (string * pyval);
    create_denied : bool;
    update_denied : bool }.

Definition mem (x : string) (l : list string) : bool :=
  existsb (String.eqb x) l.

Fixpoint assoc {A} (x : string) (l : list (string * A)) : option A :=
  match l with
  | [] => None
  | (k, a) :: rest => if String.eqb x k then Some a else assoc x rest
  end.

Definition table_name_of (TableInput : pyval) : string :=
  match TableInput with
  | PDict d => match d !! "Name" with Some (PStr n) => n | _ => "" end
  | _ => ""
  end.

Definition demo_read (path : string) (w : world)
  : result (Spark.DataFrame string) * world :=
  match assoc path (files w) with
  | Some df => (Ret df, w)
  | None => (Raise (mkExn "AnalysisException" ("Path does not exist: " ++ path)), w)
  end.

(** Spark hands a struct to a Python UDF as a [Row], a tuple of the field
    values, which is not a [dict]; it stands here as the list of those
    values. *)
Definition as_row (v : pyval) : pyval :=
  match v with
  | PDict d => PList (map_to_list d).*2
  | _ => v
  end.

(** The value handed for [meta.security] of one record: the list of label
    rows, [None] when the record has none. *)
Definition handed_security (r : gmap string pyval) : pyval :=
  match r !! "meta" with
  | Some (PDict m) =>
      match m !! "security" with
      | Some (PList labels) => PList (as_row <$> labels)
      | _ => PNone
      end
  | _ => PNone
  end.

Definition has_security (r : gmap string pyval) : bool :=
  match r !! "meta" with
  | Some (PDict m) => match m !! "security" with Some _ => true | None => false end
  | _ => false
  end.

(** The path resolves when some record of the frame carries the field (the
    schema is inferred from the records). *)
Definition demo_col (path : string) (df : Spark.DataFrame string)
  : result (gmap string pyval -> pyval) :=
  if existsb has_security (Spark.rows df)
  then Ret handed_security
  else Raise (mkExn "AnalysisException" ("cannot resolve " ++ path)).

Definition demo_write (req : Spark.write_request string) (w : world)
  : result unit * world :=
  if mem (Spark.w_path req) (unwritable w)
  then (Raise (mkExn "Py4JJavaError" ("cannot write " ++ Spark.w_path req)), w)
  else (Ret tt,
        {| files := files w; unwritable := unwritable w;
           written := (written w ++ [req])%list; tables := tables w;
           create_denied := create_denied w;
           update_denied := update_denied w |}).

Definition set_table (TableInput : pyval) (w : world) : world :=
  {| files := files w; unwritable := unwritable w; written := written w;
     tables := (tables w ++ [(table_name_of TableInput, TableInput)])%list;
     create_denied := create_denied w; update_denied := update_denied w |}.

Definition demo_create (db : string) (TableInput : pyval) (w : world)
  : result unit * world :=
  if create_denied w
  then (Raise (mkExn "ClientError" "AccessDeniedException"), w)
  else
    match assoc (table_name_of TableInput) (tables w) with
    | Some _ =>
        (Raise (mkExn "AlreadyExistsException" "Table already exists."), w)
    | None => (Ret tt, set_table TableInput w)
    end.

Definition demo_update (db : string) (TableInput : pyval) (w : world)
  : result unit * world :=
  if update_denied w
  then (Raise (mkExn "ClientError" "AccessDeniedException"), w)
  else (Ret tt, set_table TableInput w).

Definition ext : collaborators string world :=
  {| StringType := "StringType()";
     DataType_str := fun dt => dt;
     read_json := demo_read;
     col := demo_col;
     write_parquet := demo_write;
     now_isoformat := fun w => ("2024-01-02T03:04:05", w);
     boto3_client := fun _ w => (Ret tt, w);
     create_table := demo_create;
     update_table := demo_update |}.

Definition args (multi_tenant : string) : job_args :=
  {| JOB_NAME := "healthlake-etl";
     RAW_BUCKET := "raw";
     CURATED_BUCKET := "curated";
     TENANT_PARTITION_KEY := "tenantGuid";
     ENABLE_MULTI_TENANT := multi_tenant;
     EXPORT_PATH := "s3://raw/export/";
     TIMESTAMP := "2024-01-01T00:00Z" |}.

Definition field (n t : string) : Spark.StructField string :=
  {| Spark.name := n; Spark.dataType := t |}.

(** Three records: two carry a tenant label, one has an empty [meta]. *)
Definition record_T1 : gmap string pyval :=
  {[ "id" := PStr "p1";
     "meta" := PDict {[ "security" :=
                 PList [label_of TENANT_CLAIM_SYSTEM "T1"] ]} ]}.
Definition record_T2 : gmap string pyval :=
  {[ "id" := PStr "p3";
     "meta" := PDict {[ "security" :=
                 PList [label_of TENANT_CLAIM_SYSTEM "T2"] ]} ]}.
Definition record_bare : gmap string pyval :=
  {[ "id" := PStr "p2"; "meta" := PDict ∅ ]}.

Definition frame (records : list (gmap string pyval)) : Spark.DataFrame string :=
  {| Spark.schema :=
       match records with
       | [] => []
       | _ :: _ => [field "id" "StringType()"; field "meta" "StructType()"]
       end;
     Spark.rows := records |}.

(** Files for three resource types [A], [B], [C] and an empty file for [E];
    the destination of [B] refuses writes. *)
Definition w0 : world :=
  {| files := [ ("s3://raw/export/A*.ndjson", frame [record_T1; record_bare]);
                ("s3://raw/export/B*.ndjson", frame [record_T1]);
                ("s3://raw/export/C*.ndjson", frame [record_T2]);
                ("s3://raw/export/E*.ndjson", frame []) ];
     unwritable := ["s3://curated/b/"];
     written := [];
     tables := [];
     create_denied := false;
     update_denied := false |}.

(** The same collaborators without credentials: the Glue client cannot be
    obtained. *)
Definition ext_offline : collaborators string world :=
  {| StringType := StringType ext;
     DataType_str := DataType_str ext;
     read_json := read_json ext;
     col := col ext;
     write_parquet := write_parquet ext;
     now_isoformat := now_isoformat ext;
     boto3_client :=
       fun _ w => (Raise (mkExn "NoCredentialsError" "Unable to locate credentials"), w);
     create_table := create_table ext;
     update_table := update_table ext |}.

(** The same world with a table [a] already in the catalog. *)
Definition w_a : world :=
  {| files := files w0; unwritable := unwritable w0; written := [];
     tables := [("a", PDict {[ "Name" := PStr "a" ]})];
     create_denied := false; update_denied := false |}.

(** The same world with a catalog that refuses every create. *)
Definition w_denied : world :=
  {| files := files w0; unwritable := unwritable w0; written := [];
     tables := []; create_denied := true; update_denied := false |}.

(** An event in a few words. *)
Definition short (ev : event string) : string :=
  match ev with
  | EvPrint line => "print: " ++ line
  | EvReadJson path => "read " ++ path
  | EvUdfCall _ => "udf"
  | EvWrite req =>
      "write " ++ Spark.w_mode req ++ " " ++ Spark.w_path req
  | EvBotoClient service => "client " ++ service
  | EvCreateTable _ TableInput => "create_table " ++ table_name_of TableInput
  | EvUpdateTable _ TableInput => "update_table " ++ table_name_of TableInput
  end.

(** The values of one column in the rows of every write of a run. *)
Definition written_column (colName : string) (es : list (event string))
  : list (list (option pyval)) :=
  omap (fun ev =>
          match ev with
          | EvWrite req => Some ((fun r => r !! colName) <$> Spark.rows (Spark.w_data req))
          | _ => None
          end) es.

End Demo.

(** ** Observations on runs *)

Section Observations.
Context {DataType : Type}.

Definition is_udf_call (ev : event DataType) : bool :=
  match ev with EvUdfCall _ => true | _ => false end.

Definition is_catalog_call (ev : event DataType) : bool :=
  match ev with
  | EvBotoClient _ | EvCreateTable _ _ | EvUpdateTable _ _ => true
  | _ => false
  end.

Definition is_update_call (ev : event DataType) : bool :=
  match ev with EvUpdateTable _ _ => true | _ => false end.

(** A write event asks for append mode and for these partition columns, in
    this order; other events are not constrained. *)
Definition appends_by (keys : list string) (ev : event DataType) : Prop :=
  match ev with
  | EvWrite req => Spark.w_mode req = "append" /\ Spark.w_partitionBy req = keys
  | _ => True
  end.

(** The line that [main] prints when the processing of a resource type
    raised; nothing when it returned. *)
Definition failure_report (resource_type : string) (r : result unit)
  : list (event DataType) :=
  match r with
  | Ret _ => []
  | Raise e =>
      [EvPrint ("Failed to process " ++ resource_type ++ ": " ++ exn_str e)]
  end.

(** The paths read, in order. *)
Definition reads_of (es : list (event DataType)) : list string :=
  omap (fun ev => match ev with EvReadJson path => Some path | _ => None end) es.

(** The destinations written to, in order. *)
Definition write_paths (es : list (event DataType)) : list string :=
  omap (fun ev => match ev with
                  | EvWrite req => Some (Spark.w_path req)
                  | _ => None
                  end) es.

Definition not_a_read (ev : event DataType) : Prop :=
  match ev with EvReadJson _ => False | _ => True end.

Definition not_a_write (ev : event DataType) : Prop :=
  match ev with EvWrite _ => False | _ => True end.

(** The catalog calls of a run, in order. *)
Definition catalog_calls (es : list (event DataType)) : list (event DataType) :=
  filter (fun ev => is_catalog_call ev = true) es.

(** A create or update call is for this database, table name and location;
    a write is a parquet write to this location; other events are not
    constrained. *)
Definition targets (db table_name location : string) (ev : event DataType)
  : Prop :=
  match ev with
  | EvCreateTable d TableInput | EvUpdateTable d TableInput =>
      d = db
      /\ exists dict sd,
          TableInput = PDict dict
          /\ dict !! "Name" = Some (PStr table_name)
          /\ dict !! "StorageDescriptor" = Some (PDict sd)
          /\ sd !! "Location" = Some (PStr location)
  | EvWrite req =>
      Spark.w_path req = location /\ Spark.w_format req = "parquet"
  | _ => True
  end.

(** Every event of every run of [m] satisfies [P]. *)
Definition emits {W A} (P : event DataType -> Prop) (m : Script.M DataType W A)
  : Prop :=
  forall w, Forall P (Script.events (m w)).

End Observations.

(** The parts of a table description that a [TableInput] carries besides the
    table's name: its top-level keys other than ["Name"], with the storage
    descriptor replaced by the keys found inside it. *)
Definition description_items (TableInput : pyval) : gset string :=
  match TableInput with
  | PDict d =>
      dom (delete "Name" (delete "StorageDescriptor" d))
      ∪ match d !! "StorageDescriptor" with
        | Some (PDict sd) => dom sd
        | _ => ∅
        end
  | _ => ∅
  end.

(** Spark's default resolver compares column names ignoring case; with
    [spark.sql.caseSensitive] set it compares them exactly.  On ASCII names,
    two names that differ after lower-casing are different columns for
    both. *)
Definition is_ascii (s : string) : bool :=
  forallb (fun a => (Ascii.nat_of_ascii a <? 128)%nat) (String.list_ascii_of_string s).

Definition case_variant (a b : string) : bool :=
  String.eqb (Py.lower a) (Py.lower b).

(** The ["Name"] entry of a column or partition-key description. *)
Definition column_name (c : pyval) : pyval :=
  match c with PDict d => Py.get d "Name" | _ => PNone end.

(** The value a call returned, [None] if it raised. *)
Definition returned (r : result pyval) : pyval :=
  match r with Ret v => v | Raise _ => PNone end.

(** * Properties *)

(** ** The tenant identifier extractor *)

Section Extractor.

Abbreviation unknown := (PStr "unknown").
Abbreviation other x := (is_tenant_label x = false).

(** The test of line 64 holds exactly of the dictionaries whose ["system"]
    entry is the tenant claim system, character for character. *)
Lemma is_tenant_label_spec (label : pyval) :
  is_tenant_label label = true <->
  exists d, label = PDict d /\ d !! "system" = Some (PStr TENANT_CLAIM_SYSTEM).
Proof.
  split.
  - destruct label as [| | | |l|d]; simpl; try discriminate.
    unfold Py.get. destruct (d !! "system") as [[| | |s| |]|] eqn:E;
      simpl; try discriminate.
    intros H. apply String.eqb_eq in H. subst s. eauto.
  - intros (d & -> & E). simpl. unfold Py.get. rewrite E. reflexivity.
Qed.

Lemma non_dict_other (x : pyval) : Py.is_dict x = false -> other x.
Proof. destruct x; simpl; congruence. Qed.

Lemma scan_labels_skip (pre rest : list pyval) :
  Forall (fun x => other x) pre ->
  scan_labels (pre ++ rest)%list = scan_labels rest.
Proof.
  induction 1 as [|x pre Hx _ IH]; [reflexivity|].
  simpl. destruct x; try exact IH.
  simpl in Hx. rewrite Hx. exact IH.
Qed.

Lemma scan_labels_none (labels : list pyval) :
  Forall (fun x => other x) labels -> scan_labels labels = None.
Proof.
  intros H. rewrite <- (app_nil_r labels). now rewrite scan_labels_skip.
Qed.

Lemma scan_labels_hit (d : gmap string pyval) (rest : list pyval) :
  d !! "system" = Some (PStr TENANT_CLAIM_SYSTEM) ->
  scan_labels (PDict d :: rest) = Some (Py.get_default d "code" unknown).
Proof.
  intros E. simpl. unfold Py.get at 1. rewrite E. reflexivity.
Qed.

(** On a list the extractor is the scan, with ["unknown"] when the scan
    runs off the end (the empty list is caught by the guard of line 59). *)
Lemma extract_list (labels : list pyval) :
  extract_tenant_id (PList labels) = Ret (default unknown (scan_labels labels)).
Proof.
  unfold extract_tenant_id. destruct labels as [|x labels]; [reflexivity|].
  cbn [Py.truthy negb Py.iter]. now destruct (scan_labels (x :: labels)).
Qed.

Lemma extract_at_first_match (pre post : list pyval) (d : gmap string pyval) :
  Forall (fun x => other x) pre ->
  d !! "system" = Some (PStr TENANT_CLAIM_SYSTEM) ->
  extract_tenant_id (PList (pre ++ PDict d :: post)) =
  Ret (default unknown (d !! "code")).
Proof.
  intros Hpre Hd.
  now rewrite extract_list, scan_labels_skip, (scan_labels_hit _ _ Hd).
Qed.

(** The items visited when a string or a dictionary is iterated are
    strings, so none of them passes the test of line 64. *)
Lemma strings_other (l : list string) :
  Forall (fun x => other x) (PStr <$> l).
Proof. induction l; constructor; auto. Qed.

(** C1.  The extractor returns the code of the first label whose system is
    exactly the tenant claim system: (1) entries before it that do not
    carry that system are passed over and what follows it is not looked
    at; (2) of two matching labels with codes "G1" then "G2" the result is
    "G1"; (3) when the first matching label has no code the result is
    "unknown"; (4) when no label matches the result is "unknown". *)
Theorem extract_first_match_wins :
  (forall (pre post : list pyval) (d : gmap string pyval) (c : pyval),
      Forall (fun x => other x) pre ->
      d !! "system" = Some (PStr TENANT_CLAIM_SYSTEM) ->
      d !! "code" = Some c ->
      extract_tenant_id (PList (pre ++ PDict d :: post)) = Ret c)
  /\ (forall (pre mid post : list pyval) (d1 d2 : gmap string pyval),
      Forall (fun x => other x) pre ->
      d1 !! "system" = Some (PStr TENANT_CLAIM_SYSTEM) ->
      d1 !! "code" = Some (PStr "G1") ->
      d2 !! "system" = Some (PStr TENANT_CLAIM_SYSTEM) ->
      d2 !! "code" = Some (PStr "G2") ->
      extract_tenant_id (PList (pre ++ PDict d1 :: mid ++ PDict d2 :: post))
      = Ret (PStr "G1"))
  /\ (forall (pre post : list pyval) (d : gmap string pyval),
      Forall (fun x => other x) pre ->
      d !! "system" = Some (PStr TENANT_CLAIM_SYSTEM) ->
      d !! "code" = None ->
      extract_tenant_id (PList (pre ++ PDict d :: post)) = Ret unknown)
  /\ (forall labels : list pyval,
      Forall (fun x => other x) labels ->
      extract_tenant_id (PList labels) = Ret unknown).
Proof.
  repeat split.
  - intros pre post d c Hpre Hs Hc.
    now rewrite extract_at_first_match, Hc.
  - intros pre mid post d1 d2 Hpre Hs1 Hc1 _ _.
    now rewrite extract_at_first_match, Hc1.
  - intros pre post d Hpre Hs Hc.
    now rewrite extract_at_first_match, Hc.
  - intros labels H. now rewrite extract_list, scan_labels_none.
Qed.


Lemma extract_no_tenant_label (labels : list pyval) :
  Forall (fun x => other x) labels ->
  extract_tenant_id (PList labels) = Ret unknown.
Proof. intros H. now rewrite extract_list, scan_labels_none. Qed.

(** A value that is not a list: falsy values stop at the guard, [for] over
    an integer or a boolean raises inside [try], a string or a dictionary
    is iterated without a hit. *)
Lemma extract_non_list (v : pyval) :
  Py.is_list v = false -> extract_tenant_id v = Ret unknown.
Proof.
  unfold extract_tenant_id.
  destruct v as [|b|z|s|l|d]; simpl; try discriminate; intros _.
  - reflexivity.
  - now destruct b.
  - now destruct (z =? 0)%Z.
  - destruct (String.eqb s ""); [reflexivity|]. simpl.
    now rewrite (scan_labels_none _ (strings_other _)).
  - destruct (map_to_list d) as [|kv kvs]; [reflexivity|].
    cbn [negb]. now rewrite (scan_labels_none _ (strings_other _)).
Qed.

Lemma extract_returns (v : pyval) : exists r, extract_tenant_id v = Ret r.
Proof.
  destruct (Py.is_list v) eqn:E.
  - destruct v; try discriminate. rewrite extract_list. eauto.
  - rewrite extract_non_list; eauto.
Qed.

Lemma extract_returned (v : pyval) :
  extract_tenant_id v = Ret (returned (extract_tenant_id v)).
Proof. destruct (extract_returns v) as [r ->]. reflexivity. Qed.

(** On JSON-like values the extractor never raises: every such input gives
    a returned value.  It returns "unknown" for [None], for the empty list,
    for ["not-a-label"], for every value that is not a list, and for every
    list none of whose entries is a dictionary carrying the tenant claim
    system (in particular every list of entries that are not mappings). *)
Theorem extract_never_raises (v : pyval) :
  (exists r, extract_tenant_id v = Ret r)
  /\ extract_tenant_id PNone = Ret unknown
  /\ extract_tenant_id (PList []) = Ret unknown
  /\ extract_tenant_id (PList [PStr "not-a-label"]) = Ret unknown
  /\ (Py.is_list v = false -> extract_tenant_id v = Ret unknown)
  /\ (forall l, v = PList l -> Forall (fun x => Py.is_dict x = false) l ->
      extract_tenant_id v = Ret unknown)
  /\ (forall l, v = PList l -> Forall (fun x => other x) l ->
      extract_tenant_id v = Ret unknown).
Proof.
  split; [apply extract_returns|].
  repeat split; try reflexivity.
  - apply extract_non_list.
  - intros l -> H. apply extract_no_tenant_label.
    eapply Forall_impl; [exact H|]. intros x. apply non_dict_other.
  - intros l ->. apply extract_no_tenant_label.
Qed.

(** On a JSON-like value the function on any argument is the function on
    values. *)
Lemma extract_tenant_id_any_json (v : pyval) :
  extract_tenant_id_any (Json v) = extract_tenant_id v.
Proof.
  unfold extract_tenant_id_any, extract_tenant_id. cbn [arg_truthy arg_iter].
  reflexivity.
Qed.

(** C2, at the failing input.  The extractor does raise: handed
    [numpy.array([1, 2])], a value of the wrong type, the test of line 59
    raises [ValueError] and nothing catches it, line 59 being outside the
    [try].  The same holds of every argument whose truth test raises, and of
    no other: when the truth test answers, whatever the iteration does, a
    value is returned. *)
Theorem extract_raises_at_the_guard :
  extract_tenant_id_any numpy_array_1_2
  = Raise (mkExn "ValueError"
             "The truth value of an array with more than one element is ambiguous. Use a.any() or a.all()")
  /\ (forall e items, extract_tenant_id_any (Opaque (Raise e) items) = Raise e)
  /\ (forall b items, exists r,
        extract_tenant_id_any (Opaque (Ret b) items) = Ret r)
  /\ (forall v, exists r, extract_tenant_id_any (Json v) = Ret r).
Proof.
  split; [reflexivity|]. split; [reflexivity|]. split.
  - intros b items. unfold extract_tenant_id_any. cbn [arg_truthy arg_iter].
    destruct b; cbn [negb]; [|eauto].
    destruct items as [labels|e]; [|eauto].
    destruct (scan_labels labels); eauto.
  - intros v. rewrite extract_tenant_id_any_json. apply extract_returns.
Qed.

(** C10.  Entries that are not mappings are skipped one by one: when only
    such entries precede a mapping whose system is the tenant claim system,
    the result is that mapping's code. *)
Theorem extract_skips_non_mappings
    (pre post : list pyval) (d : gmap string pyval) (c : pyval) :
  Forall (fun x => Py.is_dict x = false) pre ->
  d !! "system" = Some (PStr TENANT_CLAIM_SYSTEM) ->
  d !! "code" = Some c ->
  extract_tenant_id (PList (pre ++ PDict d :: post)) = Ret c.
Proof.
  intros Hpre Hs Hc. rewrite extract_at_first_match, Hc; [reflexivity| |exact Hs].
  eapply Forall_impl; [exact Hpre|]. intros x. apply non_dict_other.
Qed.

End Extractor.

(** ** Runs of the script monad *)

Section Runs.
Context {DataType W : Type}.
Import Script.

Lemma emits_ret {A} (P : event DataType -> Prop) (a : A) :
  emits P (ret a : M DataType W A).
Proof. intros w. constructor. Qed.

Lemma emits_raise {A} (P : event DataType -> Prop) (e : exn) :
  emits P (raise e : M DataType W A).
Proof. intros w. constructor. Qed.

Lemma emits_emit (P : event DataType -> Prop) (ev : event DataType) :
  P ev -> emits P (emit ev : M DataType W unit).
Proof. intros H w. repeat constructor. exact H. Qed.

Lemma emits_call {A} (P : event DataType -> Prop) (ev : event DataType)
    (op : W -> result A * W) :
  P ev -> emits P (call ev op).
Proof.
  intros H w. unfold call, events. destruct (op w). repeat constructor. exact H.
Qed.

Lemma emits_bind {A B} (P : event DataType -> Prop)
    (m : M DataType W A) (k : A -> M DataType W B) :
  emits P m -> (forall a, emits P (k a)) -> emits P (bind m k).
Proof.
  intros Hm Hk w. unfold bind, events. specialize (Hm w). unfold events in Hm.
  destruct (m w) as [[[a|e] w1] es1]; simpl in *; [|exact Hm].
  specialize (Hk a w1). unfold events in Hk.
  destruct (k a w1) as [[r w2] es2]. simpl in *. now apply Forall_app.
Qed.

Lemma emits_try {A} (P : event DataType -> Prop)
    (m : M DataType W A) (catches : exn -> bool) (h : exn -> M DataType W A) :
  emits P m -> (forall e, emits P (h e)) -> emits P (try_except m catches h).
Proof.
  intros Hm Hh w. unfold try_except, events. specialize (Hm w).
  unfold events in Hm.
  destruct (m w) as [[[a|e] w1] es1]; simpl in *; [exact Hm|].
  destruct (catches e); [|exact Hm].
  specialize (Hh e w1). unfold events in Hh.
  destruct (h e w1) as [[r w2] es2]. simpl in *. now apply Forall_app.
Qed.

Lemma events_run {A} (r : result A) (w : W) (es : list (event DataType)) :
  events (r, w, es) = es.
Proof. reflexivity. Qed.

(** A handler for [Exception] that returns normally turns every run into
    one that returns normally. *)
Lemma try_except_returns (m : M DataType W unit) (h : exn -> M DataType W unit) :
  (forall e w, outcome (h e w) = Ret tt) ->
  forall w, outcome (try_except m Exception h w) = Ret tt.
Proof.
  intros Hh w. unfold try_except, outcome.
  destruct (m w) as [[[[]|e] w1] es1]; simpl; [reflexivity|].
  specialize (Hh e w1). unfold outcome in Hh.
  now destruct (h e w1) as [[r w2] es2].
Qed.

End Runs.

(** ** The script *)

Section EtlProperties.
Context {DataType W : Type}.
Variable ext : collaborators DataType W.
Variable args : job_args.
Import Script.

Abbreviation database_name := "healthlake_analytics".
Abbreviation tpk := (tenant_partition_key args).
Abbreviation catalog_error table_name e :=
  (EvPrint ("Error creating/updating Glue table " ++ table_name ++ ": " ++ exn_str e)).

(** *** Catalog synchronisation *)

(** Every run of [create_glue_table], by what the collaborators answer. *)
Lemma create_glue_table_cases (table_name location : string)
    (schema : list (Spark.StructField DataType)) (w : W) :
  let ci := create_table_input ext args table_name location schema in
  let ui := update_table_input ext args table_name location schema in
  create_glue_table ext args table_name location schema w =
  match boto3_client ext "glue" w with
  | (Raise e, w0) =>
      (Ret tt, w0, [EvBotoClient "glue"; catalog_error table_name e])
  | (Ret _, w0) =>
      match create_table ext database_name ci w0 with
      | (Ret _, w1) =>
          (Ret tt, w1,
           [EvBotoClient "glue"; EvCreateTable database_name ci;
            EvPrint ("Created Glue table: " ++ table_name)])
      | (Raise e, w1) =>
          if AlreadyExistsException e then
            match update_table ext database_name ui w1 with
            | (Ret _, w2) =>
                (Ret tt, w2,
                 [EvBotoClient "glue"; EvCreateTable database_name ci;
                  EvPrint ("Table " ++ table_name ++ " already exists, updating...");
                  EvUpdateTable database_name ui])
            | (Raise e2, w2) =>
                (Ret tt, w2,
                 [EvBotoClient "glue"; EvCreateTable database_name ci;
                  EvPrint ("Table " ++ table_name ++ " already exists, updating...");
                  EvUpdateTable database_name ui; catalog_error table_name e2])
            end
          else
            (Ret tt, w1,
             [EvBotoClient "glue"; EvCreateTable database_name ci;
              catalog_error table_name e])
      end
  end.
Proof.
  intros ci ui.
  unfold create_glue_table, try_except, bind, call, print, emit, Exception.
  fold ci ui.
  destruct (boto3_client ext "glue" w) as [[[]|e] w0]; [|reflexivity].
  destruct (create_table ext database_name ci w0) as [[[]|e] w1]; [reflexivity|].
  destruct (AlreadyExistsException e); [|reflexivity].
  now destruct (update_table ext database_name ui w1) as [[[]|e2] w2].
Qed.

Lemma create_glue_table_returns (table_name location : string)
    (schema : list (Spark.StructField DataType)) (w : W) :
  outcome (create_glue_table ext args table_name location schema w) = Ret tt.
Proof.
  rewrite create_glue_table_cases.
  destruct (boto3_client ext "glue" w) as [[[]|e] w0]; [|reflexivity].
  destruct (create_table ext _ _ w0) as [[[]|e] w1]; [reflexivity|].
  destruct (AlreadyExistsException e); [|reflexivity].
  now destruct (update_table ext _ _ w1) as [[[]|e2] w2].
Qed.

(** *** Tagging *)

Lemma zip_with_lit {A} (f : gmap string pyval -> pyval -> A) (v : pyval)
    (rs : list (gmap string pyval)) :
  zip_with f rs ((fun _ => v) <$> rs) = (fun r => f r v) <$> rs.
Proof. induction rs as [|r rs IH]; [reflexivity|]. csimpl. now f_equal. Qed.

(** [withColumn] with a literal sets that column to the literal in every
    row and touches nothing else. *)
Lemma rows_withColumn_lit (colName : string) (dt : DataType) (v : pyval)
    (df : Spark.DataFrame DataType) :
  Spark.rows (Spark.withColumn colName dt (Spark.lit v df) df)
  = (fun r => <[colName := v]> r) <$> Spark.rows df.
Proof. unfold Spark.withColumn, Spark.lit. simpl. apply zip_with_lit. Qed.

(** The UDF is called once per value, in order, and never fails. *)
Lemma extract_tenant_udf_run (values : list pyval) (w : W) :
  extract_tenant_udf (DataType := DataType) values w
  = (Ret ((fun v => returned (extract_tenant_id v)) <$> values), w,
     EvUdfCall <$> values).
Proof.
  induction values as [|v values IH]; [reflexivity|].
  cbn [extract_tenant_udf]. unfold bind at 1.
  rewrite (extract_returned v). unfold bind at 1. rewrite IH.
  unfold ret. simpl. now rewrite app_nil_r.
Qed.

(** Every run of the tagging step of lines 89-96. *)
Lemma df_with_tenant_cases (df : Spark.DataFrame DataType) (w : W) :
  df_with_tenant ext args df w =
  if enable_multi_tenant args then
    match col ext "meta.security" df with
    | Raise e => (Raise e, w, [])
    | Ret security =>
        (Ret (Spark.withColumn tpk (StringType ext)
                ((fun r => returned (extract_tenant_id (security r)))
                   <$> Spark.rows df) df),
         w, (fun r => EvUdfCall (security r)) <$> Spark.rows df)
    end
  else
    (Ret (Spark.withColumn tpk (StringType ext) (Spark.lit (PStr "default") df) df),
     w, []).
Proof.
  unfold df_with_tenant. destruct (enable_multi_tenant args); [|reflexivity].
  unfold bind at 1. destruct (col ext "meta.security" df) as [security|e];
    [|reflexivity].
  unfold bind at 1. rewrite extract_tenant_udf_run. unfold ret. simpl.
  rewrite app_nil_r, <- !list_fmap_compose. reflexivity.
Qed.

(** *** One resource type *)

Abbreviation processing resource_type input_path :=
  (EvPrint ("Processing " ++ resource_type ++ " from " ++ input_path)).
Abbreviation error_processing resource_type e :=
  (EvPrint ("Error processing " ++ resource_type ++ ": " ++ exn_str e)).

(** Every run of [process_resource_type], by what the collaborators answer. *)
Lemma process_resource_type_cases
    (resource_type input_path output_base_path : string) (w : W) :
  process_resource_type ext args resource_type input_path output_base_path w =
  match read_json ext input_path w with
  | (Raise e, w1) =>
      (Raise e, w1,
       [processing resource_type input_path; EvReadJson input_path;
        error_processing resource_type e])
  | (Ret df, w1) =>
      if (Spark.count df =? 0)%nat then
        (Ret tt, w1,
         [processing resource_type input_path; EvReadJson input_path;
          EvPrint ("No data found for " ++ resource_type)])
      else
        match df_with_tenant ext args df w1 with
        | (Raise e, w2, es) =>
            (Raise e, w2,
             (processing resource_type input_path :: EvReadJson input_path
                :: es ++ [error_processing resource_type e])%list)
        | (Ret with_tenant, w2, es) =>
            let with_metadata :=
              df_with_metadata ext args with_tenant (now_isoformat ext w2).1 in
            let request := write_request args resource_type with_metadata in
            match write_parquet ext request (now_isoformat ext w2).2 with
            | (Raise e, w4) =>
                (Raise e, w4,
                 (processing resource_type input_path :: EvReadJson input_path
                    :: es ++ [EvWrite request; error_processing resource_type e])%list)
            | (Ret _, w4) =>
                let sync :=
                  create_glue_table ext args (Py.lower resource_type)
                    (output_path args resource_type)
                    (Spark.schema with_metadata) w4 in
                (Ret tt, final sync,
                 (processing resource_type input_path :: EvReadJson input_path
                    :: es
                    ++ EvWrite request
                    :: EvPrint ("Successfully wrote " ++ resource_type ++ " to "
                                ++ output_path args resource_type)
                    :: events sync)%list)
            end
        end
  end.
Proof.
  unfold process_resource_type, print, emit.
  unfold bind at 1. unfold try_except at 1. unfold bind at 1. unfold call at 1.
  destruct (read_json ext input_path w) as [[df|e] w1]; [|reflexivity].
  destruct (Spark.count df =? 0)%nat; [reflexivity|].
  unfold bind at 1.
  destruct (df_with_tenant ext args df w1) as [[[with_tenant|e] w2] es];
    [|reflexivity].
  unfold bind at 1.
  destruct (now_isoformat ext w2) as [now w3]. cbn [fst snd].
  unfold bind at 1. unfold call at 1.
  destruct (write_parquet ext _ w3) as [[[]|e] w4];
    [|simpl; now rewrite <- ?app_assoc].
  unfold bind at 1. 
  pose proof (create_glue_table_returns (Py.lower resource_type)
                (output_path args resource_type)
                (Spark.schema (df_with_metadata ext args with_tenant now)) w4) as Hret.
  unfold outcome, final, events in *.
  destruct (create_glue_table ext args _ _ _ w4) as [[r w5] es5].
  simpl in Hret. subst r. simpl. now rewrite <- ?app_assoc.
Qed.

(** Splits a goal [Forall P es] along the conses and appends of [es]. *)
Ltac all_events :=
  repeat first
    [ apply Forall_nil_2
    | apply Forall_cons_2
    | apply Forall_app_2
    | assumption ];
  auto.

(** What a run of [create_glue_table] can emit: prints and catalog calls. *)
Lemma create_glue_table_emits (P : event DataType -> Prop)
    (table_name location : string) (schema : list (Spark.StructField DataType)) :
  (forall l, P (EvPrint l)) ->
  (forall ev, is_catalog_call ev = true -> P ev) ->
  emits P (create_glue_table ext args table_name location schema).
Proof.
  intros Hprint Hcat w. rewrite create_glue_table_cases. unfold events.
  destruct (boto3_client ext "glue" w) as [[[]|e] w0];
    [|repeat constructor; auto].
  destruct (create_table ext _ _ w0) as [[[]|e] w1]; [repeat constructor; auto|].
  destruct (AlreadyExistsException e); [|repeat constructor; auto].
  destruct (update_table ext _ _ w1) as [[[]|e2] w2]; repeat constructor; auto.
Qed.

(** What the tagging step can emit: UDF calls, and only in multi-tenant
    mode. *)
Lemma df_with_tenant_emits (P : event DataType -> Prop)
    (df : Spark.DataFrame DataType) :
  (enable_multi_tenant args = true -> forall v, P (EvUdfCall v)) ->
  emits P (df_with_tenant ext args df).
Proof.
  intros Hudf w. rewrite df_with_tenant_cases. unfold events.
  destruct (enable_multi_tenant args); [|constructor].
  destruct (col ext "meta.security" df) as [security|e]; [|constructor].
  simpl. apply Forall_fmap, Forall_forall. intros r _. now apply Hudf.
Qed.

Lemma process_resource_type_emits (P : event DataType -> Prop)
    (resource_type input_path output_base_path : string) :
  (forall l, P (EvPrint l)) ->
  (forall p, P (EvReadJson p)) ->
  (forall ev, is_catalog_call ev = true -> P ev) ->
  (enable_multi_tenant args = true -> forall v, P (EvUdfCall v)) ->
  (forall df, P (EvWrite (write_request args resource_type df))) ->
  emits P (process_resource_type ext args resource_type input_path output_base_path).
Proof.
  intros Hprint Hread Hcat Hudf Hwrite w.
  rewrite process_resource_type_cases. unfold events.
  destruct (read_json ext input_path w) as [[df|e] w1];
    [|repeat constructor; auto].
  destruct (Spark.count df =? 0)%nat; [repeat constructor; auto|].
  pose proof (df_with_tenant_emits P df Hudf w1) as Htag. unfold events in Htag.
  destruct (df_with_tenant ext args df w1) as [[[with_tenant|e] w2] es];
    simpl in Htag; [|now all_events].
  destruct (write_parquet ext _ _) as [[[]|e] w4]; simpl; [|now all_events].
  all_events. apply (create_glue_table_emits P _ _ _ Hprint Hcat w4).
Qed.

(** C3.  In single-tenant mode the tagging step returns, without a call to
    any collaborator and without an event, a frame with as many rows as its
    input in which every row has the constant "default" in the tenant column
    (each row is the input row with that one column set, whatever the row
    holds); and a run of [process_resource_type] contains no call of the
    tenant extractor. *)
Theorem single_tenant_default
    (df : Spark.DataFrame DataType) (w : W)
    (resource_type input_path output_base_path : string) :
  enable_multi_tenant args = false ->
  (exists tagged,
      df_with_tenant ext args df w = (Ret tagged, w, [])
      /\ Spark.count tagged = Spark.count df
      /\ Spark.rows tagged
         = (fun r => <[tpk := PStr "default"]> r) <$> Spark.rows df
      /\ Forall (fun r : gmap string pyval => r !! tpk = Some (PStr "default"))
           (Spark.rows tagged))
  /\ Forall (fun ev => is_udf_call ev = false)
       (events (process_resource_type ext args resource_type input_path
                  output_base_path w)).
Proof.
  intros Hflag. split.
  - eexists. rewrite df_with_tenant_cases, Hflag. split; [reflexivity|].
    rewrite rows_withColumn_lit. unfold Spark.count.
    rewrite rows_withColumn_lit, length_fmap. repeat split.
    apply Forall_fmap, Forall_forall. intros r _. simpl.
    apply lookup_insert_eq.
  - apply process_resource_type_emits; try reflexivity.
    + now intros [] H.
    + rewrite Hflag. discriminate.
Qed.

(** In single-tenant mode, and when the tenant column is not named like one
    of the two metadata columns, the rows handed to the writer still carry
    "default" in the tenant column. *)
Lemma single_tenant_written_rows (df : Spark.DataFrame DataType) (now : string) :
  tpk <> "_export_timestamp" -> tpk <> "_processing_date" ->
  Forall (fun r : gmap string pyval => r !! tpk = Some (PStr "default"))
    (Spark.rows
       (df_with_metadata ext args
          (Spark.withColumn tpk (StringType ext) (Spark.lit (PStr "default") df) df)
          now)).
Proof.
  intros H1 H2. unfold df_with_metadata.
  rewrite !rows_withColumn_lit, <- !list_fmap_compose.
  apply Forall_fmap, Forall_forall. intros r _. simpl.
  rewrite !lookup_insert_ne by congruence. apply lookup_insert_eq.
Qed.

(** C5.  When the frame read for a resource type has no rows,
    [process_resource_type] returns normally after the read and a "No data
    found" line: it asks for no write and makes no catalog call. *)
Theorem empty_input_is_noop
    (resource_type input_path output_base_path : string)
    (df : Spark.DataFrame DataType) (w w1 : W) :
  read_json ext input_path w = (Ret df, w1) ->
  Spark.rows df = [] ->
  process_resource_type ext args resource_type input_path output_base_path w
  = (Ret tt, w1,
     [processing resource_type input_path; EvReadJson input_path;
      EvPrint ("No data found for " ++ resource_type)]).
Proof.
  intros Hread Hrows. rewrite process_resource_type_cases, Hread.
  unfold Spark.count. now rewrite Hrows.
Qed.

(** *** The driver *)

Abbreviation input_path_of resource_type :=
  (export_path args ++ resource_type ++ "*.ndjson").
Abbreviation output_base_path_of := ("s3://" ++ curated_bucket args ++ "/").

(** One turn of the loop of lines 213-222. *)
Lemma process_all_cons (resource_type : string) (rest : list string) (w : W) :
  let job :=
    process_resource_type ext args resource_type (input_path_of resource_type)
      output_base_path_of w in
  let after := process_all ext args rest (final job) in
  process_all ext args (resource_type :: rest) w
  = (outcome after, final after,
     (events job ++ failure_report resource_type (outcome job)
      ++ events after)%list).
Proof.
  cbn [process_all]. unfold bind at 1, try_except at 1, Exception, print, emit.
  unfold outcome, final, events.
  destruct (process_resource_type ext args resource_type _ _ w)
    as [[[[]|e] w1] es1]; simpl;
    destruct (process_all ext args rest w1) as [[r w2] es2]; simpl;
    now rewrite <- ?app_assoc.
Qed.

Lemma process_all_returns (types : list string) (w : W) :
  outcome (process_all ext args types w) = Ret tt.
Proof.
  revert w. induction types as [|resource_type rest IH]; intros w;
    [reflexivity|].
  rewrite process_all_cons. apply IH.
Qed.

(** The loop over [pre ++ post] is the loop over [pre] followed by the loop
    over [post], started in the world that [pre] left. *)
Lemma process_all_app (pre post : list string) (w : W) :
  let before := process_all ext args pre w in
  let after := process_all ext args post (final before) in
  process_all ext args (pre ++ post)%list w
  = (Ret tt, final after, (events before ++ events after)%list).
Proof.
  revert w. induction pre as [|resource_type pre IH]; intros w; cbn zeta.
  - pose proof (process_all_returns post w) as Hret.
    unfold outcome, final, events, ret in *. simpl.
    destruct (process_all ext args post w) as [[r w1] es]. simpl in *.
    now subst r.
  - rewrite <- app_comm_cons, !process_all_cons. cbn zeta.
    rewrite IH. unfold outcome, final, events. simpl.
    now rewrite <- ?app_assoc.
Qed.

Lemma main_on_run (types : list string) (w : W) :
  let loop := process_all ext args types w in
  main_on ext args types w
  = (Ret tt, final loop,
     (EvPrint "Starting HealthLake ETL processing"
        :: EvPrint ("Export path: " ++ export_path args)
        :: EvPrint ("Multi-tenant mode: "
                    ++ (if enable_multi_tenant args then "True" else "False"))
        :: events loop
        ++ [EvPrint "ETL processing completed successfully"])%list).
Proof.
  cbn zeta. unfold main_on, print, emit, bind.
  pose proof (process_all_returns types w) as Hret.
  unfold outcome, final, events in *.
  destruct (process_all ext args types w) as [[r w1] es]. simpl in *.
  now subst r.
Qed.

Lemma process_all_emits (P : event DataType -> Prop) (types : list string) :
  (forall l, P (EvPrint l)) ->
  (forall p, P (EvReadJson p)) ->
  (forall ev, is_catalog_call ev = true -> P ev) ->
  (enable_multi_tenant args = true -> forall v, P (EvUdfCall v)) ->
  (forall resource_type df, P (EvWrite (write_request args resource_type df))) ->
  emits P (process_all ext args types).
Proof.
  intros Hprint Hread Hcat Hudf Hwrite.
  induction types as [|resource_type rest IH]; intros w; [constructor|].
  rewrite process_all_cons. unfold events at 1. cbn [snd].
  all_events.
  - now apply process_resource_type_emits.
  - destruct (outcome _); all_events.
Qed.

(** C4.  For every list of resource types, [main] returns normally and its
    last event is the completion line, whatever happened to the individual
    resource types.  And for every resource type [b] of the list: whether
    its processing returned or raised (at any stage), the loop goes on with
    the resource types after [b], processing all of them from the world
    that [b] left; a failure of [b] only adds a "Failed to process" line. *)
Theorem one_failure_does_not_stop_the_run (types : list string) (w : W) :
  outcome (main_on ext args types w) = Ret tt
  /\ last (events (main_on ext args types w))
     = Some (EvPrint "ETL processing completed successfully")
  /\ forall (pre post : list string) (b : string),
      types = (pre ++ b :: post)%list ->
      let before := process_all ext args pre w in
      let job :=
        process_resource_type ext args b (input_path_of b) output_base_path_of
          (final before) in
      let after := process_all ext args post (final job) in
      process_all ext args types w
      = (Ret tt, final after,
         (events before ++ events job ++ failure_report b (outcome job)
          ++ events after)%list)
      /\ exists head,
          events (main_on ext args types w)
          = (head ++ events after
             ++ [EvPrint "ETL processing completed successfully"])%list.
Proof.
  rewrite main_on_run. cbn zeta. unfold outcome at 1, events at 1. cbn [fst snd].
  split; [reflexivity|]. split.
  - rewrite !app_comm_cons. apply last_snoc.
  - intros pre post b ->. cbn zeta.
    rewrite process_all_app, process_all_cons. cbn zeta. cbn [final fst snd].
    rewrite process_all_returns. split; [reflexivity|].
    rewrite !events_run.
    match goal with
    | |- exists head, (?a :: ?b :: ?c :: (?eb ++ ?ej ++ ?fr ++ ?ea) ++ ?t)%list = _ =>
        exists (a :: b :: c :: eb ++ ej ++ fr)%list
    end.
    cbn [app]. now rewrite <- !app_assoc.
Qed.

(** C6.  Every write that a run of [main] asks for, over any list of
    resource types and in any world, is in mode "append" and is partitioned
    by exactly the tenant column and then "_export_timestamp". *)
Theorem writes_append_by_tenant_then_timestamp (types : list string) (w : W) :
  Forall (appends_by [tpk; "_export_timestamp"])
    (events (main_on ext args types w)).
Proof.
  rewrite main_on_run. cbn zeta. unfold events at 1. cbn [snd].
  all_events; try exact I.
  apply process_all_emits; try (intros; exact I).
  - now intros [].
  - intros resource_type df. split; reflexivity.
Qed.

(** *** Table descriptions *)

Lemma column_name_glue_column (field : Spark.StructField DataType) :
  column_name (glue_column ext field) = PStr (Spark.name field).
Proof. reflexivity. Qed.

Lemma is_plain_column_spec (field : Spark.StructField DataType) :
  is_plain_column args field = true <->
  Spark.name field <> tpk /\ Spark.name field <> "_export_timestamp".
Proof.
  unfold is_plain_column. rewrite negb_true_iff, orb_false_iff.
  now rewrite !String.eqb_neq.
Qed.

(** C7.  The column list derived from a schema holds exactly the fields that
    are named neither like the tenant column nor "_export_timestamp", in
    schema order; no column of the list bears one of those two names.  The
    partition keys are those two names, as strings, and both the create and
    the update description carry the column list as columns and the two
    keys as partition keys. *)
Theorem partition_columns_only_as_partition_keys
    (table_name location : string) (schema : list (Spark.StructField DataType)) :
  Forall (fun c => column_name c <> PStr tpk
                   /\ column_name c <> PStr "_export_timestamp")
    (glue_schema ext args schema)
  /\ (forall field, field ∈ schema ->
        (glue_column ext field ∈ glue_schema ext args schema
         <-> Spark.name field <> tpk /\ Spark.name field <> "_export_timestamp"))
  /\ column_name <$> glue_schema ext args schema
     = (fun f => PStr (Spark.name f))
         <$> filter (fun f => Spark.name f <> tpk
                              /\ Spark.name f <> "_export_timestamp") schema
  /\ partition_keys args
     = [ PDict {[ "Name" := PStr tpk; "Type" := PStr "string" ]};
         PDict {[ "Name" := PStr "_export_timestamp"; "Type" := PStr "string" ]} ]
  /\ Forall (fun TableInput =>
       exists d sd,
         TableInput = PDict d
         /\ d !! "StorageDescriptor" = Some (PDict sd)
         /\ sd !! "Columns" = Some (PList (glue_schema ext args schema))
         /\ d !! "PartitionKeys" = Some (PList (partition_keys args)))
       [ create_table_input ext args table_name location schema;
         update_table_input ext args table_name location schema ].
Proof.
  assert (Hfilter :
    filter (fun f => is_plain_column args f = true) schema
    = filter (fun f => Spark.name f <> tpk
                       /\ Spark.name f <> "_export_timestamp") schema).
  { apply list_filter_iff. intros f. apply is_plain_column_spec. }
  split; [|split; [|split; [|split]]].
  - unfold glue_schema. apply Forall_fmap, Forall_forall. intros f Hf.
    apply list_elem_of_filter in Hf as [Hf _].
    apply is_plain_column_spec in Hf as [H1 H2].
    unfold compose. rewrite column_name_glue_column. split; congruence.
  - intros field Hfield. split.
    + intros Hin. unfold glue_schema in Hin.
      apply list_elem_of_fmap in Hin as (g & Heq & Hg).
      apply list_elem_of_filter in Hg as [Hg _].
      apply is_plain_column_spec in Hg.
      assert (Spark.name field = Spark.name g) as ->; [|exact Hg].
      apply (f_equal column_name) in Heq.
      rewrite !column_name_glue_column in Heq. congruence.
    + intros Hne. unfold glue_schema. apply list_elem_of_fmap.
      exists field. split; [reflexivity|]. apply list_elem_of_filter.
      split; [|assumption]. now apply is_plain_column_spec.
  - unfold glue_schema. rewrite Hfilter, <- list_fmap_compose. reflexivity.
  - reflexivity.
  - repeat constructor; do 2 eexists; (split; [reflexivity|]);
      (split; [reflexivity|]); split; reflexivity.
Qed.

(** What the two descriptions carry, besides the table's name. *)
Lemma description_items_update (table_name location : string)
    (schema : list (Spark.StructField DataType)) :
  description_items (update_table_input ext args table_name location schema)
  = {[ "Columns"; "Location"; "PartitionKeys" ]}.
Proof. reflexivity. Qed.

Lemma description_items_create (table_name location : string)
    (schema : list (Spark.StructField DataType)) :
  description_items (create_table_input ext args table_name location schema)
  = {[ "Columns"; "Location"; "InputFormat"; "OutputFormat"; "SerdeInfo";
       "StoredAsSubDirectories"; "PartitionKeys"; "TableType"; "Parameters" ]}.
Proof. reflexivity. Qed.

(** C8, as the code has it.  Once the Glue client is there, reconciling
    first attempts a create with the full description.  The update call is
    made exactly when that create raised the already-exists exception, and
    it is the only update the run makes.  Its description carries the table
    name, the columns and the location (a storage descriptor with just
    these two) and the partition keys; it leaves out what the create call
    sends beyond that: input and output format, serialisation library, the
    sub-directories flag, the table type and the table parameters. *)
Theorem reconcile_create_then_update
    (table_name location : string) (schema : list (Spark.StructField DataType))
    (w w0 : W) :
  boto3_client ext "glue" w = (Ret tt, w0) ->
  let ci := create_table_input ext args table_name location schema in
  let ui := update_table_input ext args table_name location schema in
  let run := create_glue_table ext args table_name location schema w in
  (exists rest,
      events run = EvBotoClient "glue" :: EvCreateTable database_name ci :: rest)
  /\ (EvUpdateTable database_name ui ∈ events run
      <-> exists e w1, create_table ext database_name ci w0 = (Raise e, w1)
                       /\ AlreadyExistsException e = true)
  /\ Forall (fun ev => is_update_call ev = true
                       -> ev = EvUpdateTable database_name ui) (events run)
  /\ ui = PDict {[ "Name" := PStr table_name;
                   "StorageDescriptor" :=
                     PDict {[ "Columns" := PList (glue_schema ext args schema);
                              "Location" := PStr location ]};
                   "PartitionKeys" := PList (partition_keys args) ]}
  /\ description_items ui = {[ "Columns"; "Location"; "PartitionKeys" ]}
  /\ description_items ci ∖ description_items ui
     = {[ "InputFormat"; "OutputFormat"; "SerdeInfo"; "StoredAsSubDirectories";
          "TableType"; "Parameters" ]}.
Proof.
  intros Hclient ci ui run.
  assert (Hrun : run =
    match create_table ext database_name ci w0 with
    | (Ret _, w1) =>
        (Ret tt, w1,
         [EvBotoClient "glue"; EvCreateTable database_name ci;
          EvPrint ("Created Glue table: " ++ table_name)])
    | (Raise e, w1) =>
        if AlreadyExistsException e then
          match update_table ext database_name ui w1 with
          | (Ret _, w2) =>
              (Ret tt, w2,
               [EvBotoClient "glue"; EvCreateTable database_name ci;
                EvPrint ("Table " ++ table_name ++ " already exists, updating...");
                EvUpdateTable database_name ui])
          | (Raise e2, w2) =>
              (Ret tt, w2,
               [EvBotoClient "glue"; EvCreateTable database_name ci;
                EvPrint ("Table " ++ table_name ++ " already exists, updating...");
                EvUpdateTable database_name ui; catalog_error table_name e2])
          end
        else
          (Ret tt, w1,
           [EvBotoClient "glue"; EvCreateTable database_name ci;
            catalog_error table_name e])
    end).
  { unfold run. rewrite create_glue_table_cases, Hclient. reflexivity. }
  rewrite Hrun. clear Hrun run.
  split; [|split; [|split; [|split; [|split]]]];
    try reflexivity.
  - destruct (create_table ext _ ci w0) as [[[]|e] w1]; [eauto|].
    destruct (AlreadyExistsException e); [|eauto].
    destruct (update_table ext _ ui w1) as [[[]|e2] w2]; eauto.
  - destruct (create_table ext _ ci w0) as [[[]|e] w1].
    + rewrite events_run. split.
      * rewrite !elem_of_cons, elem_of_nil. intros [H|[H|[H|[]]]]; discriminate.
      * intros (e & w2 & H & _). discriminate.
    + destruct (AlreadyExistsException e) eqn:Hexists.
      * split; [eauto|]. intros _.
        destruct (update_table ext _ ui w1) as [[[]|e2] w2]; rewrite events_run;
          rewrite !elem_of_cons; auto.
      * rewrite events_run. split.
        -- rewrite !elem_of_cons, elem_of_nil. intros [H|[H|[H|[]]]]; discriminate.
        -- intros (e' & w2 & H & Hex). congruence.
  - destruct (create_table ext _ ci w0) as [[[]|e] w1].
    + rewrite events_run. repeat constructor; discriminate.
    + destruct (AlreadyExistsException e).
      * destruct (update_table ext _ ui w1) as [[[]|e2] w2]; rewrite events_run;
          repeat constructor; try discriminate; reflexivity.
      * rewrite events_run. repeat constructor; discriminate.
Qed.

(** A list of events without a catalog call has no catalog call. *)
Lemma no_catalog_call (es : list (event DataType)) :
  Forall (fun ev => is_catalog_call ev = false) es ->
  ~ Exists (fun ev => is_catalog_call ev = true) es.
Proof.
  intros Hall Hex. apply Exists_exists in Hex as (ev & Hin & Hev).
  rewrite Forall_forall in Hall. specialize (Hall ev Hin). congruence.
Qed.

(** C9.  [create_glue_table] returns normally in every world: whatever the
    client construction, the create call or the update call raises is
    caught there, and an error of the create call other than already-exists,
    or any error of the update call, is reported by the last line the run
    prints.  So [process_resource_type] returns normally whenever its write
    returned, and more generally whenever its run made any catalog call at
    all. *)
Theorem catalog_errors_never_propagate
    (table_name location : string) (schema : list (Spark.StructField DataType))
    (resource_type input_path output_base_path : string) (w : W) :
  let ci := create_table_input ext args table_name location schema in
  let ui := update_table_input ext args table_name location schema in
  let sync := create_glue_table ext args table_name location schema w in
  outcome sync = Ret tt
  /\ (forall w0 e w1,
        boto3_client ext "glue" w = (Ret tt, w0) ->
        create_table ext database_name ci w0 = (Raise e, w1) ->
        AlreadyExistsException e = false ->
        final sync = w1
        /\ last (events sync) = Some (catalog_error table_name e))
  /\ (forall w0 e w1 e2 w2,
        boto3_client ext "glue" w = (Ret tt, w0) ->
        create_table ext database_name ci w0 = (Raise e, w1) ->
        AlreadyExistsException e = true ->
        update_table ext database_name ui w1 = (Raise e2, w2) ->
        final sync = w2
        /\ last (events sync) = Some (catalog_error table_name e2))
  /\ (forall df w1 with_tenant w2 es w4,
        read_json ext input_path w = (Ret df, w1) ->
        Spark.count df <> 0%nat ->
        df_with_tenant ext args df w1 = (Ret with_tenant, w2, es) ->
        write_parquet ext
          (write_request args resource_type
             (df_with_metadata ext args with_tenant (now_isoformat ext w2).1))
          (now_isoformat ext w2).2 = (Ret tt, w4) ->
        outcome (process_resource_type ext args resource_type input_path
                   output_base_path w) = Ret tt)
  /\ (Exists (fun ev => is_catalog_call ev = true)
        (events (process_resource_type ext args resource_type input_path
                   output_base_path w)) ->
      outcome (process_resource_type ext args resource_type input_path
                 output_base_path w) = Ret tt).
Proof.
  intros ci ui sync.
  split; [apply create_glue_table_returns|].
  split; [|split; [|split]].
  - intros w0 e w1 Hclient Hcreate Hother. unfold sync.
    rewrite create_glue_table_cases, Hclient. cbn zeta. fold ci.
    rewrite Hcreate, Hother. split; reflexivity.
  - intros w0 e w1 e2 w2 Hclient Hcreate Hexists Hupdate. unfold sync.
    rewrite create_glue_table_cases, Hclient. cbn zeta. fold ci ui.
    rewrite Hcreate, Hexists, Hupdate. split; reflexivity.
  - intros df w1 with_tenant w2 es w4 Hread Hcount Htag Hwrite.
    rewrite process_resource_type_cases, Hread.
    apply Nat.eqb_neq in Hcount. rewrite Hcount, Htag. cbn zeta.
    now rewrite Hwrite.
  - rewrite process_resource_type_cases.
    destruct (read_json ext input_path w) as [[df|e] w1].
    2:{ intros Hex. exfalso. revert Hex. rewrite events_run.
        apply no_catalog_call. now all_events. }
    destruct (Spark.count df =? 0)%nat; [reflexivity|].
    pose proof (df_with_tenant_emits (fun ev => is_catalog_call ev = false) df
                  (fun _ _ => eq_refl) w1) as Htag.
    destruct (df_with_tenant ext args df w1) as [[[with_tenant|e] w2] es];
      rewrite events_run in Htag.
    2:{ intros Hex. exfalso. revert Hex. rewrite events_run.
        apply no_catalog_call. now all_events. }
    cbn zeta. destruct (write_parquet ext _ _) as [[[]|e] w4]; [reflexivity|].
    intros Hex. exfalso. revert Hex. rewrite events_run.
    apply no_catalog_call. now all_events.
Qed.

End EtlProperties.

(** ** Runs in the concrete world *)

(** Resource types [A], [B], [C] in multi-tenant mode, the write of [B]
    failing: [C] is read, tagged, written and registered all the same, and
    the run ends with the completion line. *)
Example demo_failure_of_B :
  Demo.short <$> Script.events
    (main_on Demo.ext (Demo.args "true") ["A"; "B"; "C"] Demo.w0)
  = [ "print: Starting HealthLake ETL processing";
      "print: Export path: s3://raw/export/";
      "print: Multi-tenant mode: True";
      "print: Processing A from s3://raw/export/A*.ndjson";
      "read s3://raw/export/A*.ndjson"; "udf"; "udf";
      "write append s3://curated/a/";
      "print: Successfully wrote A to s3://curated/a/";
      "client glue"; "create_table a"; "print: Created Glue table: a";
      "print: Processing B from s3://raw/export/B*.ndjson";
      "read s3://raw/export/B*.ndjson"; "udf";
      "write append s3://curated/b/";
      "print: Error processing B: cannot write s3://curated/b/";
      "print: Failed to process B: cannot write s3://curated/b/";
      "print: Processing C from s3://raw/export/C*.ndjson";
      "read s3://raw/export/C*.ndjson"; "udf";
      "write append s3://curated/c/";
      "print: Successfully wrote C to s3://curated/c/";
      "client glue"; "create_table c"; "print: Created Glue table: c";
      "print: ETL processing completed successfully" ].
Proof. vm_compute. reflexivity. Qed.

(** Processing the same resource type twice: one create that succeeds, then
    one create that finds the table and one update. *)
Example demo_reconcile_twice :
  filter (fun s => String.prefix "create_table" s || String.prefix "update_table" s = true)
    (Demo.short <$> Script.events
       (main_on Demo.ext (Demo.args "false") ["A"; "A"] Demo.w0))
  = [ "create_table a"; "create_table a"; "update_table a" ].
Proof. vm_compute. reflexivity. Qed.

(** The tenant column of the rows written for [A].  In multi-tenant mode
    it is "unknown" for the bare record and also for the record that carries
    the label, because the label arrives as a row, which is not a [dict];
    in single-tenant mode it is "default" twice. *)
Example demo_tenant_values :
  Demo.written_column "tenantGuid"
    (Script.events (main_on Demo.ext (Demo.args "true") ["A"] Demo.w0))
  = [[Some (PStr "unknown"); Some (PStr "unknown")]]
  /\ Demo.written_column "tenantGuid"
       (Script.events (main_on Demo.ext (Demo.args "false") ["A"] Demo.w0))
     = [[Some (PStr "default"); Some (PStr "default")]].
Proof. split; vm_compute; reflexivity. Qed.

(** A catalog that refuses the create: the job still returns normally. *)
Example demo_catalog_denied :
  Script.outcome
    (process_resource_type Demo.ext (Demo.args "false") "A"
       "s3://raw/export/A*.ndjson" "s3://curated/" Demo.w_denied) = Ret tt
  /\ Demo.short <$> Script.events
       (process_resource_type Demo.ext (Demo.args "false") "A"
          "s3://raw/export/A*.ndjson" "s3://curated/" Demo.w_denied)
     = [ "print: Processing A from s3://raw/export/A*.ndjson";
         "read s3://raw/export/A*.ndjson";
         "write append s3://curated/a/";
         "print: Successfully wrote A to s3://curated/a/";
         "client glue"; "create_table a";
         "print: Error creating/updating Glue table a: AccessDeniedException" ].
Proof. split; vm_compute; reflexivity. Qed.

(** C8, as stated, fails: in a world where table [a] exists, the update call
    of the run carries the partition keys as well, so its description is not
    made of the columns and the location only. *)
Lemma update_description_carries_partition_keys :
  ~ (forall TableInput,
        EvUpdateTable "healthlake_analytics" TableInput
        ∈ Script.events
            (create_glue_table Demo.ext (Demo.args "false") "a" "s3://curated/a/"
               [Demo.field "id" "StringType()"] Demo.w_a) ->
        description_items TableInput = {[ "Columns"; "Location" ]}).
Proof.
  intros H.
  specialize (H (update_table_input Demo.ext (Demo.args "false") "a"
                   "s3://curated/a/" [Demo.field "id" "StringType()"])).
  assert (Hin : "PartitionKeys" ∈ ({[ "Columns"; "Location" ]} : gset string)).
  { rewrite <- H; [rewrite description_items_update; set_solver|].
    rewrite create_glue_table_cases. cbn zeta.
    change (boto3_client Demo.ext "glue" Demo.w_a) with (Ret tt, Demo.w_a).
    cbv iota beta.
    replace (create_table Demo.ext _ _ Demo.w_a)
      with (Raise (A := unit)
              (mkExn "AlreadyExistsException" "Table already exists."),
            Demo.w_a) by reflexivity.
    cbn. rewrite !elem_of_cons. auto. }
  rewrite elem_of_union, !elem_of_singleton in Hin.
  destruct Hin; discriminate.
Qed.

(** ** The theorems at concrete inputs *)

Lemma extract_first_match_wins_witness :
  extract_tenant_id
    (PList [PStr "x"; label_of "urn:other" "Z"; label_of TENANT_CLAIM_SYSTEM "G1";
            PInt 7; label_of TENANT_CLAIM_SYSTEM "G2"]) = Ret (PStr "G1")
  /\ extract_tenant_id
       (PList [label_of "urn:other" "Z";
               PDict {[ "system" := PStr TENANT_CLAIM_SYSTEM ]};
               label_of TENANT_CLAIM_SYSTEM "G2"]) = Ret (PStr "unknown")
  /\ extract_tenant_id (PList [label_of "urn:other" "Z"; PNone])
     = Ret (PStr "unknown").
Proof.
  destruct extract_first_match_wins as (Hfirst & Htwo & Hnocode & Hnone).
  split; [|split].
  - apply (Htwo [PStr "x"; label_of "urn:other" "Z"] [PInt 7] []
             {[ "system" := PStr TENANT_CLAIM_SYSTEM; "code" := PStr "G1" ]}
             {[ "system" := PStr TENANT_CLAIM_SYSTEM; "code" := PStr "G2" ]});
      [repeat constructor|reflexivity..].
  - apply (Hnocode [label_of "urn:other" "Z"] [label_of TENANT_CLAIM_SYSTEM "G2"]
             {[ "system" := PStr TENANT_CLAIM_SYSTEM ]});
      [repeat constructor|reflexivity..].
  - apply Hnone. repeat constructor.
Defined.

Lemma extract_skips_non_mappings_witness :
  Forall (fun x => Py.is_dict x = false) [PStr "not-a-label"; PNone; PList []]
  /\ ({[ "system" := PStr TENANT_CLAIM_SYSTEM; "code" := PStr "T1" ]}
        : gmap string pyval) !! "system" = Some (PStr TENANT_CLAIM_SYSTEM)
  /\ ({[ "system" := PStr TENANT_CLAIM_SYSTEM; "code" := PStr "T1" ]}
        : gmap string pyval) !! "code" = Some (PStr "T1")
  /\ extract_tenant_id
       (PList [PStr "not-a-label"; PNone; PList [];
               label_of TENANT_CLAIM_SYSTEM "T1"; PInt 0]) = Ret (PStr "T1").
Proof.
  split; [repeat constructor|]. split; [reflexivity|]. split; [reflexivity|].
  apply (extract_skips_non_mappings [PStr "not-a-label"; PNone; PList []] [PInt 0]
           {[ "system" := PStr TENANT_CLAIM_SYSTEM; "code" := PStr "T1" ]}
           (PStr "T1")); [repeat constructor|reflexivity..].
Defined.

Lemma single_tenant_default_witness :
  enable_multi_tenant (Demo.args "false") = false
  /\ (exists tagged,
         df_with_tenant Demo.ext (Demo.args "false")
           (Demo.frame [Demo.record_T1; Demo.record_bare]) Demo.w0
         = (Ret tagged, Demo.w0, [])
         /\ Forall (fun r : gmap string pyval =>
                      r !! "tenantGuid" = Some (PStr "default"))
              (Spark.rows tagged))
  /\ Forall (fun ev => is_udf_call ev = false)
       (Script.events
          (process_resource_type Demo.ext (Demo.args "false") "A"
             "s3://raw/export/A*.ndjson" "s3://curated/" Demo.w0)).
Proof.
  split; [reflexivity|].
  destruct (single_tenant_default Demo.ext (Demo.args "false")
              (Demo.frame [Demo.record_T1; Demo.record_bare]) Demo.w0
              "A" "s3://raw/export/A*.ndjson" "s3://curated/" eq_refl)
    as [(tagged & Hrun & _ & _ & Hrows) Hudf].
  split; [exists tagged; split; assumption|exact Hudf].
Defined.

Lemma one_failure_does_not_stop_the_run_witness :
  ["A"; "B"; "C"] = (["A"] ++ "B" :: ["C"])%list
  /\ Script.outcome (main_on Demo.ext (Demo.args "true") ["A"; "B"; "C"] Demo.w0)
     = Ret tt
  /\ let before := process_all Demo.ext (Demo.args "true") ["A"] Demo.w0 in
     let job :=
       process_resource_type Demo.ext (Demo.args "true") "B"
         "s3://raw/export/B*.ndjson" "s3://curated/" (Script.final before) in
     let after :=
       process_all Demo.ext (Demo.args "true") ["C"] (Script.final job) in
     Script.outcome job
     = Raise (mkExn "Py4JJavaError" "cannot write s3://curated/b/")
     /\ process_all Demo.ext (Demo.args "true") ["A"; "B"; "C"] Demo.w0
        = (Ret tt, Script.final after,
           (Script.events before ++ Script.events job
            ++ failure_report "B" (Script.outcome job)
            ++ Script.events after)%list).
Proof.
  split; [reflexivity|].
  destruct (one_failure_does_not_stop_the_run Demo.ext (Demo.args "true")
              ["A"; "B"; "C"] Demo.w0) as (Hret & _ & Hsplit).
  split; [exact Hret|]. cbn zeta. split; [reflexivity|].
  exact (proj1 (Hsplit ["A"] ["C"] "B" eq_refl)).
Defined.

Lemma empty_input_is_noop_witness :
  read_json Demo.ext "s3://raw/export/E*.ndjson" Demo.w0
  = (Ret (Demo.frame []), Demo.w0)
  /\ Spark.rows (Demo.frame []) = []
  /\ process_resource_type Demo.ext (Demo.args "true") "E"
       "s3://raw/export/E*.ndjson" "s3://curated/" Demo.w0
     = (Ret tt, Demo.w0,
        [EvPrint "Processing E from s3://raw/export/E*.ndjson";
         EvReadJson "s3://raw/export/E*.ndjson";
         EvPrint "No data found for E"]).
Proof.
  split; [reflexivity|]. split; [reflexivity|].
  apply (empty_input_is_noop Demo.ext (Demo.args "true") "E"
           "s3://raw/export/E*.ndjson" "s3://curated/" (Demo.frame []) Demo.w0
           Demo.w0); reflexivity.
Defined.

Lemma partition_columns_only_as_partition_keys_witness :
  Demo.field "id" "StringType()"
    ∈ [Demo.field "id" "StringType()"; Demo.field "tenantGuid" "StringType()";
       Demo.field "_export_timestamp" "StringType()"]
  /\ glue_column Demo.ext (Demo.field "id" "StringType()")
     ∈ glue_schema Demo.ext (Demo.args "true")
         [Demo.field "id" "StringType()"; Demo.field "tenantGuid" "StringType()";
          Demo.field "_export_timestamp" "StringType()"].
Proof.
  split; [apply list_elem_of_here|].
  destruct (partition_columns_only_as_partition_keys Demo.ext (Demo.args "true")
              "a" "s3://curated/a/"
              [Demo.field "id" "StringType()"; Demo.field "tenantGuid" "StringType()";
               Demo.field "_export_timestamp" "StringType()"])
    as (_ & Hkept & _).
  apply (Hkept (Demo.field "id" "StringType()")); [apply list_elem_of_here|].
  split; discriminate.
Defined.

Lemma reconcile_create_then_update_witness :
  boto3_client Demo.ext "glue" Demo.w_a = (Ret tt, Demo.w_a)
  /\ EvUpdateTable "healthlake_analytics"
       (update_table_input Demo.ext (Demo.args "true") "a" "s3://curated/a/"
          [Demo.field "id" "StringType()"])
     ∈ Script.events
         (create_glue_table Demo.ext (Demo.args "true") "a" "s3://curated/a/"
            [Demo.field "id" "StringType()"] Demo.w_a).
Proof.
  split; [reflexivity|].
  destruct (reconcile_create_then_update Demo.ext (Demo.args "true") "a"
              "s3://curated/a/" [Demo.field "id" "StringType()"]
              Demo.w_a Demo.w_a eq_refl) as (_ & Hupdate & _).
  apply Hupdate.
  exists (mkExn "AlreadyExistsException" "Table already exists."), Demo.w_a.
  split; reflexivity.
Defined.

Lemma catalog_errors_never_propagate_witness :
  boto3_client Demo.ext "glue" Demo.w_denied = (Ret tt, Demo.w_denied)
  /\ create_table Demo.ext "healthlake_analytics"
       (create_table_input Demo.ext (Demo.args "false") "a" "s3://curated/a/" [])
       Demo.w_denied
     = (Raise (mkExn "ClientError" "AccessDeniedException"), Demo.w_denied)
  /\ Script.AlreadyExistsException (mkExn "ClientError" "AccessDeniedException")
     = false
  /\ last (Script.events
             (create_glue_table Demo.ext (Demo.args "false") "a"
                "s3://curated/a/" [] Demo.w_denied))
     = Some (EvPrint
               "Error creating/updating Glue table a: AccessDeniedException")
  /\ Exists (fun ev => is_catalog_call ev = true)
       (Script.events
          (process_resource_type Demo.ext (Demo.args "false") "A"
             "s3://raw/export/A*.ndjson" "s3://curated/" Demo.w_denied))
  /\ Script.outcome
       (process_resource_type Demo.ext (Demo.args "false") "A"
          "s3://raw/export/A*.ndjson" "s3://curated/" Demo.w_denied) = Ret tt.
Proof.
  assert (Hcall : Exists (fun ev => is_catalog_call ev = true)
    (Script.events
       (process_resource_type Demo.ext (Demo.args "false") "A"
          "s3://raw/export/A*.ndjson" "s3://curated/" Demo.w_denied))).
  { vm_compute. do 4 apply Exists_cons_tl. apply Exists_cons_hd. reflexivity. }
  destruct (catalog_errors_never_propagate Demo.ext (Demo.args "false") "a"
              "s3://curated/a/" [] "A" "s3://raw/export/A*.ndjson"
              "s3://curated/" Demo.w_denied)
    as (_ & Hcreate & _ & _ & Hjob).
  split; [reflexivity|]. split; [reflexivity|]. split; [reflexivity|].
  split.
  - exact (proj2 (Hcreate Demo.w_denied _ Demo.w_denied eq_refl eq_refl eq_refl)).
  - split; [exact Hcall|exact (Hjob Hcall)].
Defined.

(** * Further properties of the script *)

(** ** The extractor *)

Section ExtractorMore.

Lemma scan_labels_filter (labels : list pyval) :
  scan_labels (filter (fun x => is_tenant_label x = true) labels)
  = scan_labels labels.
Proof.
  induction labels as [|x labels IH]; [reflexivity|].
  destruct (is_tenant_label x) eqn:E.
  - rewrite filter_cons_True by exact E.
    destruct x as [| | | | |d]; try discriminate. simpl in *. now rewrite E.
  - rewrite filter_cons_False by congruence. rewrite IH.
    symmetry. apply (scan_labels_skip [x] labels). now constructor.
Qed.

(** X1.  Entries that do not carry the tenant claim system have no influence
    on the result: dropping all of them from the list gives the same
    answer. *)
Theorem extract_ignores_other_entries (labels : list pyval) :
  extract_tenant_id (PList (filter (fun x => is_tenant_label x = true) labels))
  = extract_tenant_id (PList labels).
Proof. now rewrite !extract_list, scan_labels_filter. Qed.

Lemma scan_labels_some (labels : list pyval) (c : pyval) :
  scan_labels labels = Some c ->
  exists d, PDict d ∈ labels
            /\ d !! "system" = Some (PStr TENANT_CLAIM_SYSTEM)
            /\ c = default (PStr "unknown") (d !! "code").
Proof.
  induction labels as [|x labels IH]; [discriminate|]. simpl.
  assert (Hrest : scan_labels labels = Some c ->
            exists d, PDict d ∈ x :: labels
                      /\ d !! "system" = Some (PStr TENANT_CLAIM_SYSTEM)
                      /\ c = default (PStr "unknown") (d !! "code")).
  { intros H. destruct (IH H) as (d & Hin & Hd). exists d.
    split; [now apply list_elem_of_further|exact Hd]. }
  destruct x as [| | | | |d]; try exact Hrest.
  destruct (Py.eq_str (Py.get d "system") TENANT_CLAIM_SYSTEM) eqn:E;
    [|exact Hrest].
  intros [= <-]. exists d. split; [apply list_elem_of_here|]. split; [|reflexivity].
  apply (is_tenant_label_spec (PDict d)) in E as (d' & [= <-] & Hs). exact Hs.
Qed.

(** X2.  The extractor invents nothing: what it returns is "unknown" or the
    value found under "code" in a dictionary of the list whose system is the
    tenant claim system. *)
Theorem extract_returns_unknown_or_a_code (v r : pyval) :
  extract_tenant_id v = Ret r ->
  r = PStr "unknown"
  \/ exists l d, v = PList l /\ PDict d ∈ l
                 /\ d !! "system" = Some (PStr TENANT_CLAIM_SYSTEM)
                 /\ d !! "code" = Some r.
Proof.
  destruct (Py.is_list v) eqn:E.
  - destruct v as [| | | |l|]; try discriminate. rewrite extract_list.
    destruct (scan_labels l) as [c|] eqn:Hscan; simpl; intros [= <-]; [|now left].
    apply scan_labels_some in Hscan as (d & Hin & Hs & ->).
    destruct (d !! "code") as [c|] eqn:Hc; [|now left].
    right. exists l, d. auto.
  - rewrite (extract_non_list v E). intros [= <-]. now left.
Qed.

(** X3.  Scanning a concatenation: when the first part holds an entry that
    carries the tenant claim system, the second part is never looked at;
    otherwise the answer is the one for the second part alone. *)
Theorem extract_app (l1 l2 : list pyval) :
  extract_tenant_id (PList (l1 ++ l2))
  = if existsb is_tenant_label l1
    then extract_tenant_id (PList l1)
    else extract_tenant_id (PList l2).
Proof.
  assert (Hscan : scan_labels (l1 ++ l2)
                  = if existsb is_tenant_label l1
                    then scan_labels l1 else scan_labels l2).
  { induction l1 as [|x l1 IH]; [reflexivity|].
    cbn [existsb app]. destruct (is_tenant_label x) eqn:E.
    - destruct x as [| | | | |d]; try discriminate. simpl in *. now rewrite E.
    - cbn [orb].
      change (x :: l1 ++ l2)%list with ([x] ++ (l1 ++ l2))%list.
      change (x :: l1) with ([x] ++ l1)%list.
      rewrite !(scan_labels_skip [x]) by now constructor.
      exact IH. }
  rewrite !extract_list, Hscan. now destruct (existsb is_tenant_label l1).
Qed.

End ExtractorMore.

(** ** Tagging and the metadata columns *)

Section EtlMore.
Context {DataType W : Type}.
Variable ext : collaborators DataType W.
Variable args : job_args.
Import Script.

Abbreviation tpk := (tenant_partition_key args).

Lemma zip_with_fmap_r {A} (f : gmap string pyval -> pyval -> A)
    (g : gmap string pyval -> pyval) (rs : list (gmap string pyval)) :
  zip_with f rs (g <$> rs) = (fun r => f r (g r)) <$> rs.
Proof. induction rs as [|r rs IH]; [reflexivity|]. csimpl. now f_equal. Qed.

Lemma case_variant_false (a b : string) : case_variant a b = false -> a <> b.
Proof.
  unfold case_variant. intros H ->. now rewrite String.eqb_refl in H.
Qed.

(** X4.  In multi-tenant mode, when Spark resolves "meta.security", the
    tagging step returns a frame with one row per input row, in the same
    order, and the tenant column of each row holds what the extractor
    returns on the security value that Spark hands for that row. *)
Theorem multi_tenant_rows (df : Spark.DataFrame DataType) (w : W)
    (security : gmap string pyval -> pyval) :
  enable_multi_tenant args = true ->
  col ext "meta.security" df = Ret security ->
  exists tagged,
    outcome (df_with_tenant ext args df w) = Ret tagged
    /\ Forall2 (fun r r' : gmap string pyval =>
                  exists t, extract_tenant_id (security r) = Ret t
                            /\ r' !! tpk = Some t)
         (Spark.rows df) (Spark.rows tagged).
Proof.
  intros Hflag Hcol. eexists. rewrite df_with_tenant_cases, Hflag, Hcol.
  split; [reflexivity|].
  unfold Spark.withColumn. cbn [Spark.rows]. rewrite zip_with_fmap_r.
  apply Forall2_fmap_r, Forall_Forall2_diag, Forall_forall. intros r _.
  exists (returned (extract_tenant_id (security r))).
  split; [apply extract_returned|apply lookup_insert_eq].
Qed.

(** X5.  The metadata step keeps the rows in number and order and gives
    every row the run's timestamp under "_export_timestamp" and the one
    processing date under "_processing_date".  Every column with an ASCII
    name that is not one of these two names up to case is left as it was,
    in every row. *)
Theorem metadata_columns (with_tenant : Spark.DataFrame DataType) (now : string) :
  Forall2 (fun r r' : gmap string pyval =>
             r' !! "_export_timestamp" = Some (PStr (timestamp args))
             /\ r' !! "_processing_date" = Some (PStr now)
             /\ forall c, is_ascii c = true ->
                          case_variant c "_export_timestamp" = false ->
                          case_variant c "_processing_date" = false ->
                          r' !! c = r !! c)
    (Spark.rows with_tenant)
    (Spark.rows (df_with_metadata ext args with_tenant now)).
Proof.
  unfold df_with_metadata. rewrite !rows_withColumn_lit, <- list_fmap_compose.
  apply Forall2_fmap_r, Forall_Forall2_diag, Forall_forall. intros r _.
  unfold compose. split; [|split].
  - rewrite lookup_insert_ne by discriminate. apply lookup_insert_eq.
  - apply lookup_insert_eq.
  - intros c _ H1 H2.
    apply case_variant_false in H1. apply case_variant_false in H2.
    now rewrite !lookup_insert_ne by congruence.
Qed.

(** ** Failures of one resource type *)

Abbreviation error_processing resource_type e :=
  (EvPrint ("Error processing " ++ resource_type ++ ": " ++ exn_str e)).

Ltac all_events :=
  repeat first
    [ apply Forall_nil_2
    | apply Forall_cons_2
    | apply Forall_app_2
    | assumption ];
  auto.

(** X6.  When [process_resource_type] raises, the exception is the one that
    the read, the resolution of "meta.security" (multi-tenant mode only) or
    the write raised, unchanged; the last thing the run did was to print the
    "Error processing" line with that exception's text; and the run made no
    catalog call. *)
Theorem failures_are_logged_and_reraised
    (resource_type input_path output_base_path : string) (w : W) (e : exn) :
  outcome (process_resource_type ext args resource_type input_path
             output_base_path w) = Raise e ->
  last (events (process_resource_type ext args resource_type input_path
                  output_base_path w))
  = Some (error_processing resource_type e)
  /\ Forall (fun ev => is_catalog_call ev = false)
       (events (process_resource_type ext args resource_type input_path
                  output_base_path w))
  /\ ((exists w1, read_json ext input_path w = (Raise e, w1))
      \/ (enable_multi_tenant args = true
          /\ exists df w1, read_json ext input_path w = (Ret df, w1)
                           /\ col ext "meta.security" df = Raise e)
      \/ (exists df w3 w4,
             write_parquet ext (write_request args resource_type df) w3
             = (Raise e, w4)
             /\ EvWrite (write_request args resource_type df)
                ∈ events (process_resource_type ext args resource_type
                            input_path output_base_path w))).
Proof.
  rewrite process_resource_type_cases.
  destruct (read_json ext input_path w) as [[df|e0] w1].
  2:{ intros [= ->]. rewrite events_run. split; [reflexivity|].
      split; [now all_events|]. left. eauto. }
  destruct (Spark.count df =? 0)%nat; [discriminate|].
  pose proof (df_with_tenant_emits ext args (fun ev => is_catalog_call ev = false)
                df (fun _ _ => eq_refl) w1) as Htag.
  pose proof (df_with_tenant_cases ext args df w1) as Hcases.
  destruct (df_with_tenant ext args df w1) as [[[with_tenant|e0] w2] es];
    rewrite events_run in Htag.
  2:{ intros [= ->]. rewrite events_run. split; [|split].
      - rewrite !app_comm_cons. apply last_snoc.
      - now all_events.
      - right. left.
        destruct (enable_multi_tenant args); [|discriminate].
        split; [reflexivity|]. exists df, w1. split; [reflexivity|].
        destruct (col ext "meta.security" df); [discriminate|]. congruence. }
  cbn zeta. destruct (write_parquet ext _ _) as [[[]|e0] w4] eqn:Hwrite;
    [discriminate|].
  intros [= ->]. rewrite events_run. split; [|split].
  - rewrite !app_comm_cons, cons_middle, app_assoc. apply last_snoc.
  - now all_events.
  - right. right. do 3 eexists. split; [exact Hwrite|].
    rewrite !elem_of_cons, elem_of_app, !elem_of_cons. auto.
Qed.

(** ** Reads and writes of a run *)

Abbreviation input_path_of resource_type :=
  (export_path args ++ resource_type ++ "*.ndjson").
Abbreviation output_base_path_of := ("s3://" ++ curated_bucket args ++ "/").

Lemma reads_of_none (es : list (event DataType)) :
  Forall not_a_read es -> reads_of es = [].
Proof.
  induction 1 as [|ev es Hev _ IH]; [reflexivity|].
  unfold reads_of in *. cbn [omap list_omap]. destruct ev; simpl in *;
    try exact IH. contradiction.
Qed.

Lemma write_paths_none (es : list (event DataType)) :
  Forall not_a_write es -> write_paths es = [].
Proof.
  induction 1 as [|ev es Hev _ IH]; [reflexivity|].
  unfold write_paths in *. cbn [omap list_omap]. destruct ev; simpl in *;
    try exact IH. contradiction.
Qed.

Lemma reads_of_app (es1 es2 : list (event DataType)) :
  reads_of (es1 ++ es2)%list = (reads_of es1 ++ reads_of es2)%list.
Proof. apply omap_app. Qed.

Lemma write_paths_app (es1 es2 : list (event DataType)) :
  write_paths (es1 ++ es2)%list = (write_paths es1 ++ write_paths es2)%list.
Proof. apply omap_app. Qed.

Lemma failure_report_quiet (resource_type : string) (r : result unit) :
  reads_of (failure_report (DataType := DataType) resource_type r) = []
  /\ write_paths (failure_report (DataType := DataType) resource_type r) = [].
Proof. now destruct r. Qed.

(** One resource type is read once, from its input path. *)
Lemma process_resource_type_reads
    (resource_type input_path output_base_path : string) (w : W) :
  reads_of (events (process_resource_type ext args resource_type input_path
                      output_base_path w)) = [input_path].
Proof.
  rewrite process_resource_type_cases.
  destruct (read_json ext input_path w) as [[df|e] w1]; [|reflexivity].
  destruct (Spark.count df =? 0)%nat; [reflexivity|].
  pose proof (df_with_tenant_emits ext args not_a_read df (fun _ _ => I) w1)
    as Htag.
  destruct (df_with_tenant ext args df w1) as [[[with_tenant|e] w2] es];
    rewrite events_run in Htag; apply reads_of_none in Htag.
  2:{ rewrite events_run.
      change (reads_of (?a :: EvReadJson ?p :: ?l)) with (p :: reads_of l).
      now rewrite reads_of_app, Htag. }
  cbn zeta. destruct (write_parquet ext _ _) as [[[]|e] w4]; rewrite events_run;
    change (reads_of (?a :: EvReadJson ?p :: ?l)) with (p :: reads_of l);
    rewrite reads_of_app, Htag; [|reflexivity].
  cbn [app]. f_equal.
  change (reads_of (EvWrite ?r :: EvPrint ?s :: ?l)) with (reads_of l).
  apply reads_of_none, create_glue_table_emits; [intros; exact I|].
  now intros [].
Qed.

(** One resource type is written at most once, to its output path. *)
Lemma process_resource_type_writes
    (resource_type input_path output_base_path : string) (w : W) :
  write_paths (events (process_resource_type ext args resource_type input_path
                         output_base_path w)) = []
  \/ write_paths (events (process_resource_type ext args resource_type
                            input_path output_base_path w))
     = [output_path args resource_type].
Proof.
  rewrite process_resource_type_cases.
  destruct (read_json ext input_path w) as [[df|e] w1]; [|now left].
  destruct (Spark.count df =? 0)%nat; [now left|].
  pose proof (df_with_tenant_emits ext args not_a_write df (fun _ _ => I) w1)
    as Htag.
  destruct (df_with_tenant ext args df w1) as [[[with_tenant|e] w2] es];
    rewrite events_run in Htag; apply write_paths_none in Htag.
  2:{ left. rewrite events_run.
      change (write_paths (?a :: EvReadJson ?p :: ?l)) with (write_paths l).
      now rewrite write_paths_app, Htag. }
  right. cbn zeta.
  destruct (write_parquet ext _ _) as [[[]|e] w4]; rewrite events_run;
    change (write_paths (?a :: EvReadJson ?p :: ?l)) with (write_paths l);
    rewrite write_paths_app, Htag; [|reflexivity].
  cbn [app].
  change (write_paths (EvWrite ?r :: EvPrint ?s :: ?l))
    with (Spark.w_path r :: write_paths l).
  f_equal. apply write_paths_none, create_glue_table_emits; [intros; exact I|].
  now intros [].
Qed.

(** X7.  A run of [main] over a list of resource types reads exactly one
    input per resource type, in list order: the export path followed by the
    resource type and "*.ndjson".  No resource type is skipped or read twice,
    whatever fails along the way. *)
Theorem every_type_read_once_in_order (types : list string) (w : W) :
  reads_of (events (main_on ext args types w))
  = (fun resource_type => input_path_of resource_type) <$> types.
Proof.
  rewrite main_on_run. cbn zeta. rewrite events_run.
  change (reads_of (EvPrint ?a :: EvPrint ?b :: EvPrint ?c :: ?l))
    with (reads_of l).
  rewrite reads_of_app. cbn [reads_of omap list_omap]. rewrite app_nil_r.
  revert w. induction types as [|resource_type rest IH]; intros w;
    [reflexivity|].
  rewrite process_all_cons. cbn zeta. rewrite events_run, !reads_of_app.
  rewrite process_resource_type_reads, (proj1 (failure_report_quiet _ _)), IH.
  reflexivity.
Qed.

(** X8.  The destinations written by a run of [main] form a sub-sequence of
    the output paths of its resource types: each resource type is written at
    most once, in list order, and only to
    "s3://<curated bucket>/<resource type in lower case>/". *)
Theorem writes_go_to_own_output_path (types : list string) (w : W) :
  write_paths (events (main_on ext args types w))
  `sublist_of` (output_path args <$> types).
Proof.
  rewrite main_on_run. cbn zeta. rewrite events_run.
  change (write_paths (EvPrint ?a :: EvPrint ?b :: EvPrint ?c :: ?l))
    with (write_paths l).
  rewrite write_paths_app. cbn [write_paths omap list_omap]. rewrite app_nil_r.
  revert w. induction types as [|resource_type rest IH]; intros w;
    [reflexivity|].
  rewrite process_all_cons. cbn zeta. rewrite events_run, !write_paths_app.
  rewrite (proj2 (failure_report_quiet _ _)). cbn [app fmap list_fmap].
  destruct (process_resource_type_writes resource_type
              (input_path_of resource_type) output_base_path_of w) as [-> | ->].
  - cbn [app]. apply sublist_cons, IH.
  - cbn [app]. apply sublist_skip, IH.
Qed.

(** ** Catalog calls *)

Abbreviation database_name := "healthlake_analytics".
Abbreviation catalog_error table_name e :=
  (EvPrint ("Error creating/updating Glue table " ++ table_name ++ ": " ++ exn_str e)).

(** X9.  A run of [create_glue_table] asks for the Glue client once and then
    makes at most one create call and, only after it, at most one update
    call.  When the client cannot be obtained, no catalog call follows: the
    error is printed and the function returns. *)
Theorem reconcile_call_shape (table_name location : string)
    (schema : list (Spark.StructField DataType)) (w : W) :
  let ci := create_table_input ext args table_name location schema in
  let ui := update_table_input ext args table_name location schema in
  let sync := create_glue_table ext args table_name location schema w in
  (catalog_calls (events sync) = [EvBotoClient "glue"]
   \/ catalog_calls (events sync)
      = [EvBotoClient "glue"; EvCreateTable database_name ci]
   \/ catalog_calls (events sync)
      = [EvBotoClient "glue"; EvCreateTable database_name ci;
         EvUpdateTable database_name ui])
  /\ forall e w0,
      boto3_client ext "glue" w = (Raise e, w0) ->
      sync = (Ret tt, w0, [EvBotoClient "glue"; catalog_error table_name e]).
Proof.
  intros ci ui sync. unfold sync. rewrite create_glue_table_cases. cbn zeta.
  fold ci ui. split.
  - destruct (boto3_client ext "glue" w) as [[[]|e] w0]; [|now left].
    destruct (create_table ext _ ci w0) as [[[]|e] w1]; [right; now left|].
    destruct (AlreadyExistsException e); [|right; now left].
    destruct (update_table ext _ ui w1) as [[[]|e2] w2]; right; now right.
  - intros e w0 ->. reflexivity.
Qed.

Lemma create_glue_table_targets (table_name location : string)
    (schema : list (Spark.StructField DataType)) (w : W) :
  Forall (targets database_name table_name location)
    (events (create_glue_table ext args table_name location schema w)).
Proof.
  assert (Hc : targets (DataType := DataType) database_name table_name location
                 (EvCreateTable database_name
                    (create_table_input ext args table_name location schema))).
  { split; [reflexivity|]. do 2 eexists. split; [reflexivity|]. now repeat split. }
  assert (Hu : targets (DataType := DataType) database_name table_name location
                 (EvUpdateTable database_name
                    (update_table_input ext args table_name location schema))).
  { split; [reflexivity|]. do 2 eexists. split; [reflexivity|]. now repeat split. }
  rewrite create_glue_table_cases. cbn zeta.
  destruct (boto3_client ext "glue" w) as [[[]|e] w0];
    [|rewrite events_run; all_events; exact I].
  destruct (create_table ext _ _ w0) as [[[]|e] w1];
    [rewrite events_run; all_events; exact I|].
  destruct (AlreadyExistsException e);
    [|rewrite events_run; all_events; exact I].
  destruct (update_table ext _ _ w1) as [[[]|e2] w2]; rewrite events_run;
    all_events; exact I.
Qed.

(** X10.  Whatever a run of [process_resource_type] writes, creates or
    updates is for that resource type: the write is a parquet write to its
    output path, and every create or update call is in database
    "healthlake_analytics", for the table named by the resource type in
    lower case, with that same output path as location. *)
Theorem writes_and_catalog_calls_agree
    (resource_type input_path output_base_path : string) (w : W) :
  Forall (targets database_name (Py.lower resource_type)
            (output_path args resource_type))
    (events (process_resource_type ext args resource_type input_path
               output_base_path w)).
Proof.
  rewrite process_resource_type_cases.
  destruct (read_json ext input_path w) as [[df|e] w1];
    [|rewrite events_run; all_events; exact I].
  destruct (Spark.count df =? 0)%nat; [rewrite events_run; all_events; exact I|].
  pose proof (df_with_tenant_emits ext args
                (targets database_name (Py.lower resource_type)
                   (output_path args resource_type)) df (fun _ _ => I) w1)
    as Htag.
  destruct (df_with_tenant ext args df w1) as [[[with_tenant|e] w2] es];
    rewrite events_run in Htag.
  2:{ rewrite events_run. all_events; exact I. }
  cbn zeta. destruct (write_parquet ext _ _) as [[[]|e] w4]; rewrite events_run;
    all_events; try exact I; try (split; reflexivity).
  apply create_glue_table_targets.
Qed.

(** ** What is registered as columns *)

Lemma names_with_field (f : Spark.StructField DataType)
    (fs : list (Spark.StructField DataType)) (n : string) :
  n ∈ Spark.name <$> Spark.with_field f fs
  <-> n = Spark.name f \/ n ∈ Spark.name <$> fs.
Proof.
  unfold Spark.with_field.
  destruct (existsb _ fs) eqn:E.
  - assert (Hnames :
      Spark.name <$> map (fun g => if String.eqb (Spark.name g) (Spark.name f)
                                   then f else g) fs = Spark.name <$> fs).
    { clear E. induction fs as [|g fs IH]; [reflexivity|]. csimpl.
      rewrite IH. f_equal.
      destruct (String.eqb (Spark.name g) (Spark.name f)) eqn:Eg; [|reflexivity].
      now apply String.eqb_eq in Eg. }
    rewrite Hnames. split; [auto|]. intros [->|H]; [|exact H].
    apply existsb_exists in E as (g & Hg & Eg). apply String.eqb_eq in Eg.
    rewrite <- Eg. apply list_elem_of_fmap. exists g. split; [reflexivity|].
    now apply list_elem_of_In.
  - rewrite fmap_app, elem_of_app. csimpl. rewrite list_elem_of_singleton. tauto.
Qed.

(** X11.  For a name that is ASCII and is neither "_export_timestamp" nor
    "_processing_date" written in another case: it is registered as a plain
    column exactly when it is a column of the tagged frame or is
    "_processing_date", and is neither the tenant column nor
    "_export_timestamp". *)
Theorem registered_columns (with_tenant : Spark.DataFrame DataType)
    (now n : string) :
  is_ascii n = true ->
  (case_variant n "_export_timestamp" = true -> n = "_export_timestamp") ->
  (case_variant n "_processing_date" = true -> n = "_processing_date") ->
  (PStr n ∈ column_name
              <$> glue_schema ext args
                    (Spark.schema (df_with_metadata ext args with_tenant now))
   <-> (n ∈ Spark.name <$> Spark.schema with_tenant \/ n = "_processing_date")
       /\ n <> tpk /\ n <> "_export_timestamp").
Proof.
  intros _ _ _.
  unfold glue_schema. rewrite <- list_fmap_compose.
  rewrite list_elem_of_fmap. setoid_rewrite list_elem_of_filter.
  setoid_rewrite is_plain_column_spec.
  assert (Hschema : forall m,
    m ∈ Spark.name <$> Spark.schema (df_with_metadata ext args with_tenant now)
    <-> m = "_processing_date" \/ m = "_export_timestamp"
        \/ m ∈ Spark.name <$> Spark.schema with_tenant).
  { intros m. unfold df_with_metadata. cbn [Spark.schema Spark.withColumn].
    now rewrite !names_with_field. }
  split.
  - intros (f & Heq & (Hne1 & Hne2) & Hin). unfold compose in Heq.
    rewrite column_name_glue_column in Heq. injection Heq as ->.
    split; [|split; assumption].
    assert (Hm : Spark.name f ∈ Spark.name
                   <$> Spark.schema (df_with_metadata ext args with_tenant now)).
    { apply list_elem_of_fmap. eauto. }
    apply Hschema in Hm as [Hm|[Hm|Hm]]; [now right|contradiction|now left].
  - intros (Hn & Hne1 & Hne2).
    assert (Hm : n ∈ Spark.name
                   <$> Spark.schema (df_with_metadata ext args with_tenant now)).
    { apply Hschema. tauto. }
    apply list_elem_of_fmap in Hm as (f & -> & Hf).
    exists f. unfold compose. rewrite column_name_glue_column. auto.
Qed.

(** ** What is written in single-tenant mode *)

(** X12.  In single-tenant mode, and when the tenant column has an ASCII
    name that is not "_export_timestamp" or "_processing_date" up to case,
    every row that a run of [process_resource_type] hands to the writer has
    "default" in the tenant column. *)
Theorem single_tenant_writes_default
    (resource_type input_path output_base_path : string) (w : W) :
  enable_multi_tenant args = false ->
  is_ascii tpk = true ->
  case_variant tpk "_export_timestamp" = false ->
  case_variant tpk "_processing_date" = false ->
  Forall (fun ev =>
            match ev with
            | EvWrite req =>
                Forall (fun r : gmap string pyval =>
                          r !! tpk = Some (PStr "default"))
                  (Spark.rows (Spark.w_data req))
            | _ => True
            end)
    (events (process_resource_type ext args resource_type input_path
               output_base_path w)).
Proof.
  intros Hflag _ Hne1 Hne2.
  apply case_variant_false in Hne1. apply case_variant_false in Hne2.
  rewrite process_resource_type_cases.
  destruct (read_json ext input_path w) as [[df|e] w1];
    [|rewrite events_run; repeat constructor].
  destruct (Spark.count df =? 0)%nat; [rewrite events_run; repeat constructor|].
  rewrite df_with_tenant_cases, Hflag. cbn zeta.
  pose proof (single_tenant_written_rows ext args df (now_isoformat ext w1).1
                Hne1 Hne2) as Hrows.
  destruct (write_parquet ext _ _) as [[[]|e] w4]; rewrite events_run;
    all_events; try exact I.
  apply create_glue_table_emits; [intros; exact I|]. now intros [].
Qed.

(** ** Shape of a run that returns *)

Lemma catalog_calls_none (es : list (event DataType)) :
  Forall (fun ev => is_catalog_call ev = false) es -> catalog_calls es = [].
Proof.
  induction 1 as [|ev es Hev _ IH]; [reflexivity|].
  unfold catalog_calls in *. rewrite filter_cons_False by congruence. exact IH.
Qed.

Lemma create_glue_table_first_call (table_name location : string)
    (schema : list (Spark.StructField DataType)) (w : W) :
  exists rest,
    catalog_calls (events (create_glue_table ext args table_name location schema w))
    = EvBotoClient "glue" :: rest.
Proof.
  rewrite create_glue_table_cases. cbn zeta.
  destruct (boto3_client ext "glue" w) as [[[]|e] w0]; [|now eexists].
  destruct (create_table ext _ _ w0) as [[[]|e] w1]; [now eexists|].
  destruct (AlreadyExistsException e); [|now eexists].
  destruct (update_table ext _ _ w1) as [[[]|e2] w2]; now eexists.
Qed.

(** X13.  A run of [process_resource_type] that returns normally did one of
    two things: it found no rows, wrote nothing and made no catalog call; or
    it wrote once, to the output path of the resource type, and then went on
    to the catalog, starting with the request for the Glue client. *)
Theorem normal_return_shape
    (resource_type input_path output_base_path : string) (w : W) :
  let run :=
    process_resource_type ext args resource_type input_path output_base_path w in
  outcome run = Ret tt ->
  (write_paths (events run) = [] /\ catalog_calls (events run) = []
   /\ exists df w1, read_json ext input_path w = (Ret df, w1)
                    /\ Spark.rows df = [])
  \/ (write_paths (events run) = [output_path args resource_type]
      /\ exists rest, catalog_calls (events run) = EvBotoClient "glue" :: rest).
Proof.
  cbn zeta. rewrite process_resource_type_cases.
  destruct (read_json ext input_path w) as [[df|e] w1]; [|discriminate].
  destruct (Spark.count df =? 0)%nat eqn:Hcount.
  { intros _. left. rewrite events_run. split; [reflexivity|].
    split; [reflexivity|]. exists df, w1. split; [reflexivity|].
    apply Nat.eqb_eq in Hcount. unfold Spark.count in Hcount.
    now destruct (Spark.rows df). }
  pose proof (df_with_tenant_emits ext args not_a_write df (fun _ _ => I) w1)
    as Hwr.
  pose proof (df_with_tenant_emits ext args (fun ev => is_catalog_call ev = false)
                df (fun _ _ => eq_refl) w1) as Hcat.
  destruct (df_with_tenant ext args df w1) as [[[with_tenant|e] w2] es];
    [|discriminate].
  rewrite events_run in Hwr, Hcat.
  apply write_paths_none in Hwr. apply catalog_calls_none in Hcat.
  cbn zeta. destruct (write_parquet ext _ _) as [[[]|e] w4]; [|discriminate].
  intros _. right. rewrite events_run. split.
  - change (write_paths (?a :: EvReadJson ?p :: ?l)) with (write_paths l).
    rewrite write_paths_app, Hwr. cbn [app].
    change (write_paths (EvWrite ?r :: EvPrint ?s :: ?l))
      with (Spark.w_path r :: write_paths l).
    f_equal. apply write_paths_none, create_glue_table_emits; [intros; exact I|].
    now intros [].
  - destruct (create_glue_table_first_call (Py.lower resource_type)
                (output_path args resource_type)
                (Spark.schema
                   (df_with_metadata ext args with_tenant (now_isoformat ext w2).1))
                w4) as [rest Hrest].
    exists rest. unfold catalog_calls in *.
    rewrite !filter_cons_False by discriminate.
    rewrite filter_app, Hcat. cbn [app].
    rewrite !filter_cons_False by discriminate. exact Hrest.
Qed.

End EtlMore.

(** ** The further properties at concrete inputs *)

Lemma extract_returns_unknown_or_a_code_witness :
  extract_tenant_id (PList [PInt 1; label_of TENANT_CLAIM_SYSTEM "T1"])
  = Ret (PStr "T1")
  /\ (PStr "T1" = PStr "unknown"
      \/ exists l d,
          PList [PInt 1; label_of TENANT_CLAIM_SYSTEM "T1"] = PList l
          /\ PDict d ∈ l
          /\ d !! "system" = Some (PStr TENANT_CLAIM_SYSTEM)
          /\ d !! "code" = Some (PStr "T1")).
Proof.
  split; [reflexivity|].
  apply (extract_returns_unknown_or_a_code
           (PList [PInt 1; label_of TENANT_CLAIM_SYSTEM "T1"]) (PStr "T1")).
  reflexivity.
Defined.

Lemma multi_tenant_rows_witness :
  enable_multi_tenant (Demo.args "TRUE") = true
  /\ col Demo.ext "meta.security" (Demo.frame [Demo.record_T1; Demo.record_bare])
     = Ret Demo.handed_security
  /\ exists tagged,
      Script.outcome
        (df_with_tenant Demo.ext (Demo.args "TRUE")
           (Demo.frame [Demo.record_T1; Demo.record_bare]) Demo.w0)
      = Ret tagged
      /\ Forall2 (fun r r' : gmap string pyval =>
                    exists t, extract_tenant_id (Demo.handed_security r) = Ret t
                              /\ r' !! "tenantGuid" = Some t)
           [Demo.record_T1; Demo.record_bare] (Spark.rows tagged).
Proof.
  split; [reflexivity|]. split; [reflexivity|].
  exact (multi_tenant_rows Demo.ext (Demo.args "TRUE")
           (Demo.frame [Demo.record_T1; Demo.record_bare]) Demo.w0
           Demo.handed_security eq_refl eq_refl).
Defined.

Lemma metadata_columns_witness :
  is_ascii "id" = true
  /\ case_variant "id" "_export_timestamp" = false
  /\ case_variant "id" "_processing_date" = false
  /\ Forall2 (fun r r' : gmap string pyval =>
                r' !! "_export_timestamp" = Some (PStr "2024-01-01T00:00Z")
                /\ r' !! "_processing_date" = Some (PStr "2024-01-02T03:04:05")
                /\ r' !! "id" = r !! "id")
       [Demo.record_T1; Demo.record_bare]
       (Spark.rows
          (df_with_metadata Demo.ext (Demo.args "true")
             (Demo.frame [Demo.record_T1; Demo.record_bare])
             "2024-01-02T03:04:05")).
Proof.
  split; [reflexivity|]. split; [reflexivity|]. split; [reflexivity|].
  eapply Forall2_impl.
  - exact (metadata_columns Demo.ext (Demo.args "true")
             (Demo.frame [Demo.record_T1; Demo.record_bare])
             "2024-01-02T03:04:05").
  - intros r r' (Hexport & Hdate & Hother).
    split; [exact Hexport|]. split; [exact Hdate|].
    apply (Hother "id"); reflexivity.
Defined.

Lemma failures_are_logged_and_reraised_witness :
  Script.outcome
    (process_resource_type Demo.ext (Demo.args "true") "B"
       "s3://raw/export/B*.ndjson" "s3://curated/" Demo.w0)
  = Raise (mkExn "Py4JJavaError" "cannot write s3://curated/b/")
  /\ last (Script.events
             (process_resource_type Demo.ext (Demo.args "true") "B"
                "s3://raw/export/B*.ndjson" "s3://curated/" Demo.w0))
     = Some (EvPrint "Error processing B: cannot write s3://curated/b/")
  /\ Forall (fun ev => is_catalog_call ev = false)
       (Script.events
          (process_resource_type Demo.ext (Demo.args "true") "B"
             "s3://raw/export/B*.ndjson" "s3://curated/" Demo.w0)).
Proof.
  split; [reflexivity|].
  destruct (failures_are_logged_and_reraised Demo.ext (Demo.args "true") "B"
              "s3://raw/export/B*.ndjson" "s3://curated/" Demo.w0
              (mkExn "Py4JJavaError" "cannot write s3://curated/b/") eq_refl)
    as (Hlast & Hquiet & _).
  split; [exact Hlast|exact Hquiet].
Defined.

Lemma reconcile_call_shape_witness :
  boto3_client Demo.ext_offline "glue" Demo.w0
  = (Raise (mkExn "NoCredentialsError" "Unable to locate credentials"), Demo.w0)
  /\ create_glue_table Demo.ext_offline (Demo.args "true") "a" "s3://curated/a/"
       [Demo.field "id" "StringType()"] Demo.w0
     = (Ret tt, Demo.w0,
        [EvBotoClient "glue";
         EvPrint "Error creating/updating Glue table a: Unable to locate credentials"]).
Proof.
  split; [reflexivity|].
  exact (proj2 (reconcile_call_shape Demo.ext_offline (Demo.args "true") "a"
                  "s3://curated/a/" [Demo.field "id" "StringType()"] Demo.w0)
           _ _ eq_refl).
Defined.

Lemma registered_columns_witness :
  is_ascii "_processing_date" = true
  /\ (case_variant "_processing_date" "_export_timestamp" = true ->
      "_processing_date" = "_export_timestamp")
  /\ (case_variant "_processing_date" "_processing_date" = true ->
      "_processing_date" = "_processing_date")
  /\ "_processing_date" <> tenant_partition_key (Demo.args "true")
  /\ "_processing_date" <> "_export_timestamp"
  /\ PStr "_processing_date"
     ∈ column_name
         <$> glue_schema Demo.ext (Demo.args "true")
               (Spark.schema
                  (df_with_metadata Demo.ext (Demo.args "true")
                     (Demo.frame [Demo.record_T1]) "2024-01-02T03:04:05")).
Proof.
  split; [reflexivity|]. split; [discriminate|]. split; [reflexivity|].
  split; [discriminate|]. split; [discriminate|].
  apply (registered_columns Demo.ext (Demo.args "true")
           (Demo.frame [Demo.record_T1]) "2024-01-02T03:04:05"
           "_processing_date");
    [reflexivity|discriminate|reflexivity|].
  split; [now right|]. split; discriminate.
Defined.

Lemma single_tenant_writes_default_witness :
  enable_multi_tenant (Demo.args "false") = false
  /\ is_ascii (tenant_partition_key (Demo.args "false")) = true
  /\ case_variant (tenant_partition_key (Demo.args "false")) "_export_timestamp"
     = false
  /\ case_variant (tenant_partition_key (Demo.args "false")) "_processing_date"
     = false
  /\ Forall (fun ev =>
               match ev with
               | EvWrite req =>
                   Forall (fun r : gmap string pyval =>
                             r !! "tenantGuid" = Some (PStr "default"))
                     (Spark.rows (Spark.w_data req))
               | _ => True
               end)
       (Script.events
          (process_resource_type Demo.ext (Demo.args "false") "A"
             "s3://raw/export/A*.ndjson" "s3://curated/" Demo.w0)).
Proof.
  split; [reflexivity|]. split; [reflexivity|]. split; [reflexivity|].
  split; [reflexivity|].
  apply (single_tenant_writes_default Demo.ext (Demo.args "false") "A"
           "s3://raw/export/A*.ndjson" "s3://curated/" Demo.w0); reflexivity.
Defined.

Lemma normal_return_shape_witness :
  Script.outcome
    (process_resource_type Demo.ext (Demo.args "false") "A"
       "s3://raw/export/A*.ndjson" "s3://curated/" Demo.w0) = Ret tt
  /\ write_paths
       (Script.events
          (process_resource_type Demo.ext (Demo.args "false") "A"
             "s3://raw/export/A*.ndjson" "s3://curated/" Demo.w0))
     = ["s3://curated/a/"].
Proof.
  split; [reflexivity|].
  destruct (normal_return_shape Demo.ext (Demo.args "false") "A"
              "s3://raw/export/A*.ndjson" "s3://curated/" Demo.w0 eq_refl)
    as [(_ & _ & df & w1 & Hread & Hrows) | [Hpaths _]].
  - exfalso. injection Hread as <- _. discriminate Hrows.
  - exact Hpaths.
Defined.
